(** * cache/jemalloc_nodump_allocator.cc

    A shallow embedding of RocksDB's [JemallocNodumpAllocator]: a cache
    allocator that creates a dedicated jemalloc arena and replaces the
    arena's extent-allocation hook by a function that marks every new
    extent [MADV_DONTDUMP].

    The source is a thin layer over jemalloc, the OS and the logger.  Each
    C++ function is embedded as a program over a signature of operations
    ([Op]); the operations are interpreted on a [World] holding the atomic
    static [original_alloc_], the state of the external collaborators, the
    live [extent_hooks_t] objects and the caller's output variables.  The
    external collaborators are a parameter ([Runtime]); nothing is assumed
    about them unless a theorem says so.

    A call is run on its own by [run], and several calls in threads of one
    process by [pool_exec], where every operation is one atomic step.  The
    integers of the source ([unsigned], [int], [size_t], pointers) are
    modelled by [Z]: the code compares them with 0 and passes them on, and
    does no arithmetic of its own on them. *)

From Stdlib Require Import ZArith Lia.
From stdpp Require Import gmap strings list fin_maps pretty.

Local Open Scope Z_scope.

(** ** Data *)

(** Addresses (object pointers, function pointers) are integers. *)
Definition nullptr : Z := 0.

(** jemalloc's [extent_hooks_t]: a table of function pointers. *)
Record extent_hooks_t := {
  alloc : Z;
  dalloc : Z;
  destroy : Z;
  commit : Z;
  decommit : Z;
  purge_lazy : Z;
  purge_forced : Z;
  split : Z;
  merge : Z;
}.

(** The member-wise store [h->alloc = f]. *)
Definition set_alloc (h : extent_hooks_t) (f : Z) : extent_hooks_t :=
  {| alloc := f; dalloc := dalloc h; destroy := destroy h;
     commit := commit h; decommit := decommit h;
     purge_lazy := purge_lazy h; purge_forced := purge_forced h;
     split := split h; merge := merge h |}.

(** The data members of [class JemallocNodumpAllocator].  [hooks_] is the
    address held by the [std::unique_ptr<extent_hooks_t>], [info_log_] the
    logger handle. *)
Record JemallocNodumpAllocator := {
  arena_index_ : Z;
  flags_ : Z;
  hooks_ : Z;
  info_log_ : Z;
}.

Record JemallocNodumpAllocatorOptions := { info_log : Z }.

(** [rocksdb::Status], as far as this file uses it. *)
Inductive Code := kOk | kNotSupported | kInvalidArgument | kIncomplete.

Record Status := { code : Code; msg : string }.

Definition Status_OK : Status := {| code := kOk; msg := "" |}.
Definition Status_NotSupported (m : string) : Status :=
  {| code := kNotSupported; msg := m |}.
Definition Status_InvalidArgument (m : string) : Status :=
  {| code := kInvalidArgument; msg := m |}.
Definition Status_Incomplete (m : string) : Status :=
  {| code := kIncomplete; msg := m |}.

(** The arguments an [extent_alloc_t] receives.  [zero] and [commit] are
    in/out parameters: here the values behind the pointers at the call. *)
Record extent_alloc_args := {
  a_extent : Z;
  a_new_addr : Z;
  a_size : Z;
  a_alignment : Z;
  a_zero : bool;
  a_commit : bool;
  a_arena_ind : Z;
}.

(** What the build fixes: the feature macro of the header, the address of
    [JemallocNodumpAllocator::Alloc], and the constants and helpers taken
    from jemalloc's and the system's headers and from util/string_util.h. *)
Record Config := {
  ROCKSDB_JEMALLOC_NODUMP_ALLOCATOR : bool;
  Alloc_address : Z;
  ToString : Z → string;
  MALLOCX_ARENA : Z → Z;
  MALLOCX_TCACHE_NONE : Z;
  MADV_DONTDUMP : Z;
}.

(** ** Operations *)

(** Everything the code does to the world outside its local variables. *)
Inductive Op :=
  | AtomicLoad                                    (* original_alloc_.load(relaxed) *)
  | CompareExchangeStrong (expected desired : Z)  (* original_alloc_.compare_exchange_strong *)
  | Mallctl (name : string) (oldp : bool) (newp : option Z)
  | Mallocx (size flags : Z)
  | Dallocx (p flags : Z)
  | MallocUsableSize (p : Z)
  | CallExtentAlloc (f : Z) (a : extent_alloc_args) (* call through an extent_alloc_t* *)
  | Madvise (addr len advice : Z)
  | FprintfStderr (fmt : string) (arg : Z)
  | RocksLogError (logger : Z) (fmt : string) (arg : Z)
  | ReadExtentHooks (p : Z)                        (* *p *)
  | NewExtentHooks (h : extent_hooks_t)            (* new extent_hooks_t(h) *)
  | WriteAlloc (p f : Z)                           (* p->alloc = f *)
  | DeleteExtentHooks (p : Z)                      (* delete p *)
  | AssignOut (out : Z) (a : JemallocNodumpAllocator). (* *out = make_shared(a) *)

(** The type of the answer to each operation. *)
Definition answer (e : Op) : Type :=
  match e with
  | AtomicLoad => Z
  | CompareExchangeStrong _ _ => (bool * Z)%type   (* success, expected afterwards *)
  | Mallctl _ _ _ => (Z * Z)%type                  (* return value, value stored through oldp *)
  | Mallocx _ _ => Z
  | Dallocx _ _ => unit
  | MallocUsableSize _ => Z
  | CallExtentAlloc _ _ => (Z * bool * bool)%type  (* result, *zero, *commit *)
  | Madvise _ _ _ => Z
  | FprintfStderr _ _ => unit
  | RocksLogError _ _ _ => unit
  | ReadExtentHooks _ => extent_hooks_t
  | NewExtentHooks _ => Z
  | WriteAlloc _ _ => unit
  | DeleteExtentHooks _ => unit
  | AssignOut _ _ => option JemallocNodumpAllocator  (* what the output owned alone *)
  end.

(** A program: returns, performs an operation and goes on with its answer,
    or fails an [assert] (the process is terminated). *)
Inductive Prog (A : Type) : Type :=
  | Ret (a : A)
  | Vis (e : Op) (k : answer e → Prog A)
  | Crash.

Arguments Ret {A} a.
Arguments Vis {A} e k.
Arguments Crash {A}.

Fixpoint bind {A B} (p : Prog A) (f : A → Prog B) : Prog B :=
  match p with
  | Ret a => f a
  | Vis e k => Vis e (λ x, bind (k x) f)
  | Crash => Crash
  end.

#[global] Instance Prog_ret : MRet Prog := @Ret.
#[global] Instance Prog_bind : MBind Prog := λ A B f p, bind p f.
#[global] Instance Prog_fmap : FMap Prog := λ A B f p, bind p (λ a, Ret (f a)).

Definition call (e : Op) : Prog (answer e) := Vis e Ret.

(** Modelled from the spec: the [assert] macro of <cassert>, which this
    repository uses but does not define.  The specification treats a failed
    assertion as fatal (the process terminates), which is what the macro
    does wherever it is compiled in. *)
Definition assert_ (c : bool) : Prog unit := if c then Ret () else Crash.

(** ** The code *)

Section Code.
Context (cfg : Config).

(** [JemallocNodumpAllocator::JemallocNodumpAllocator] *)
Definition JemallocNodumpAllocator_ctor (arena_index flags hooks info_log : Z)
  : Prog JemallocNodumpAllocator :=
  assert_ (negb (arena_index =? 0));;
  mret {| arena_index_ := arena_index; flags_ := flags;
          hooks_ := hooks; info_log_ := info_log |}.

(** [JemallocNodumpAllocator::Allocate] *)
Definition Allocate (this : JemallocNodumpAllocator) (size : Z) : Prog Z :=
  call (Mallocx size (flags_ this)).

(** [JemallocNodumpAllocator::Deallocate] *)
Definition Deallocate (this : JemallocNodumpAllocator) (p : Z) : Prog unit :=
  call (Dallocx p (flags_ this)).

(** [JemallocNodumpAllocator::Alloc], the replacement extent hook.  The
    result carries the returned pointer and the values left behind
    [zero] and [commit]. *)
Definition Alloc (extent new_addr size alignment : Z) (zero commit : bool)
    (arena_ind : Z) : Prog (Z * bool * bool) :=
  original_alloc ← call AtomicLoad;
  assert_ (negb (original_alloc =? nullptr));;
  r ← call (CallExtentAlloc original_alloc
              {| a_extent := extent; a_new_addr := new_addr; a_size := size;
                 a_alignment := alignment; a_zero := zero;
                 a_commit := commit; a_arena_ind := arena_ind |});
  let result := r.1.1 in
  if negb (result =? nullptr) then
    ret ← call (Madvise result size (MADV_DONTDUMP cfg));
    if negb (ret =? 0) then
      call (FprintfStderr
        "JemallocNodumpAllocator failed to set MADV_DONTDUMP, error code: %d"
        ret);;
      assert_ false;;
      mret r
    else mret r
  else mret r.

(** [JemallocNodumpAllocator::~JemallocNodumpAllocator]: the body, then
    the destruction of the member [hooks_] (a [unique_ptr] deletes what
    it holds unless it is empty). *)
Definition JemallocNodumpAllocator_dtor (this : JemallocNodumpAllocator)
  : Prog unit :=
  assert_ (negb (arena_index_ this =? 0));;
  let key := "arena." +:+ ToString cfg (arena_index_ this) +:+ ".destroy" in
  r ← call (Mallctl key false None);
  let ret := r.1 in
  (if negb (ret =? 0) then
     call (RocksLogError (info_log_ this)
             "Failed to destroy arena, error code: %d" ret)
   else mret ());;
  if hooks_ this =? nullptr then mret ()
  else call (DeleteExtentHooks (hooks_ this)).

(** The end of an assignment to a [shared_ptr]: the allocator that the
    assigned variable owned alone, if any, is destroyed. *)
Definition release (old : option JemallocNodumpAllocator) : Prog unit :=
  match old with
  | Some o => JemallocNodumpAllocator_dtor o
  | None => mret ()
  end.

(** [JemallocNodumpAllocator::UsableSize] *)
Definition UsableSize (this : JemallocNodumpAllocator) (p : Z)
    (allocation_size : Z) : Prog Z :=
  call (MallocUsableSize p).

(** [NewJemallocNodumpAllocator].  [cache_allocator] is the address of
    the caller's [shared_ptr].  The assignment in the last statement puts
    the new allocator into it and then lets go of what it held. *)
Definition NewJemallocNodumpAllocator (options : JemallocNodumpAllocatorOptions)
    (cache_allocator : Z) : Prog Status :=
  if negb (ROCKSDB_JEMALLOC_NODUMP_ALLOCATOR cfg) then
    mret (Status_NotSupported
      ("JemallocNodumpAllocator only available with jemalloc version >= 5 " +:+
       "and MADV_DONTDUMP is available."))
  else
  if cache_allocator =? nullptr then
    mret (Status_InvalidArgument "cache_allocator is nullptr.")
  else
  (* Create arena. *)
  r ← call (Mallctl "arenas.create" true None);
  let ret := r.1 in
  let arena_index := r.2 in
  if negb (ret =? 0) then
    call (RocksLogError (info_log options)
            "Failed to create jemalloc arena, error code: %d" ret);;
    mret (Status_Incomplete
            ("Failed to create jemalloc arena, error code: " +:+ ToString cfg ret))
  else
  assert_ (negb (arena_index =? 0));;
  let flags := Z.lor (MALLOCX_ARENA cfg arena_index) (MALLOCX_TCACHE_NONE cfg) in
  let key := "arena." +:+ ToString cfg arena_index +:+ ".extent_hooks" in
  (* Read existing hooks. *)
  r ← call (Mallctl key true None);
  let ret := r.1 in
  let hooks := r.2 in
  if negb (ret =? 0) then
    call (RocksLogError (info_log options)
            "Failed to read existing hooks, error code: %d" ret);;
    mret (Status_Incomplete
            ("Failed to read existing hooks, error code: " +:+ ToString cfg ret))
  else
  (* Store existing alloc. *)
  h ← call (ReadExtentHooks hooks);
  let original_alloc := alloc h in
  c ← call (CompareExchangeStrong nullptr original_alloc);
  let success := c.1 in
  let expected := c.2 in
  assert_ (success || (original_alloc =? expected));;
  (* Set the custom hook. *)
  h ← call (ReadExtentHooks hooks);
  new_hooks ← call (NewExtentHooks h);
  call (WriteAlloc new_hooks (Alloc_address cfg));;
  let hooks_ptr := new_hooks in
  r ← call (Mallctl key false (Some hooks_ptr));
  let ret := r.1 in
  if negb (ret =? 0) then
    call (RocksLogError (info_log options)
            "Failed to set custom hook, error code: %d" ret);;
    call (DeleteExtentHooks new_hooks);;
    mret (Status_Incomplete
            ("Failed to set custom hook, error code: " +:+ ToString cfg ret))
  else
  (* Create cache allocator. *)
  a ← JemallocNodumpAllocator_ctor arena_index flags new_hooks (info_log options);
  old ← call (AssignOut cache_allocator a);
  release old;;
  mret Status_OK.

End Code.

(** ** Calls

    What a thread of the process may ask of this file, and what it gets
    back. *)
Inductive Call :=
  | CallNew (options : JemallocNodumpAllocatorOptions) (cache_allocator : Z)
  | CallAllocate (this : JemallocNodumpAllocator) (size : Z)
  | CallDeallocate (this : JemallocNodumpAllocator) (p : Z)
  | CallUsableSize (this : JemallocNodumpAllocator) (p allocation_size : Z)
  | CallAlloc (extent new_addr size alignment : Z) (zero commit : bool)
              (arena_ind : Z)
  | CallDestroy (this : JemallocNodumpAllocator).

Inductive Result :=
  | RStatus (st : Status)
  | RPointer (p : Z)
  | RSize (n : Z)
  | RExtent (r : Z * bool * bool)
  | RDone.

Definition perform (cfg : Config) (c : Call) : Prog Result :=
  match c with
  | CallNew options cache_allocator =>
      RStatus <$> NewJemallocNodumpAllocator cfg options cache_allocator
  | CallAllocate this size => RPointer <$> Allocate this size
  | CallDeallocate this p => Deallocate this p;; mret RDone
  | CallUsableSize this p n => RSize <$> UsableSize this p n
  | CallAlloc extent new_addr size alignment zero commit arena_ind =>
      RExtent <$> Alloc cfg extent new_addr size alignment zero commit arena_ind
  | CallDestroy this => JemallocNodumpAllocator_dtor cfg this;; mret RDone
  end.


(** ** The world *)

(** An operation together with its answer. *)
Definition Event : Type := sigT answer.

Notation "e ↦ x" := (existT (P := answer) e x) (at level 60, no associativity).

(** The external collaborators, acting on their own state [Ω]: jemalloc
    ([mallctl], [mallocx], [dallocx], [malloc_usable_size], and the extent
    allocation functions reached through function pointers) and the OS
    ([madvise]).  [mallctl name oldp newp] gets the name, whether [oldp] is
    given, and the value behind [newp] if that is given; it answers with
    its return value and the value it stored through [oldp]. *)
Record Runtime (Ω : Type) := {
  mallctl : string → bool → option Z → Ω → Z * Z * Ω;
  mallocx : Z → Z → Ω → Z * Ω;
  dallocx : Z → Z → Ω → Ω;
  malloc_usable_size : Z → Ω → Z * Ω;
  extent_alloc : Z → extent_alloc_args → Ω → Z * bool * bool * Ω;
  madvise : Z → Z → Z → Ω → Z * Ω;
}.

Arguments mallctl {Ω} _ _ _ _ _.
Arguments mallocx {Ω} _ _ _ _.
Arguments dallocx {Ω} _ _ _ _.
Arguments malloc_usable_size {Ω} _ _ _.
Arguments extent_alloc {Ω} _ _ _ _.
Arguments madvise {Ω} _ _ _ _ _.

(** The state of the process, as far as this file can see it. *)
Record World (Ω : Type) := {
  original_alloc_ : Z;                  (* the static std::atomic<extent_alloc_t*> *)
  env : Ω;                              (* state of jemalloc and the OS *)
  heap : gmap Z extent_hooks_t;         (* the live extent_hooks_t objects *)
  outs : gmap Z JemallocNodumpAllocator;(* what the callers' shared_ptrs own alone *)
  trace : list Event;                   (* the operations performed so far *)
}.

Arguments original_alloc_ {Ω} _.
Arguments env {Ω} _.
Arguments heap {Ω} _.
Arguments outs {Ω} _.
Arguments trace {Ω} _.

Section World.
Context {Ω : Type}.

Definition set_original_alloc (w : World Ω) (f : Z) : World Ω :=
  let 'Build_World _ _ ω h o t := w in
  {| original_alloc_ := f; env := ω; heap := h; outs := o; trace := t |}.

Definition set_env (w : World Ω) (ω : Ω) : World Ω :=
  let 'Build_World _ s _ h o t := w in
  {| original_alloc_ := s; env := ω; heap := h; outs := o; trace := t |}.

Definition set_heap (w : World Ω) (m : gmap Z extent_hooks_t) : World Ω :=
  let 'Build_World _ s ω _ o t := w in
  {| original_alloc_ := s; env := ω; heap := m; outs := o; trace := t |}.

Definition set_outs (w : World Ω) (m : gmap Z JemallocNodumpAllocator) : World Ω :=
  let 'Build_World _ s ω h _ t := w in
  {| original_alloc_ := s; env := ω; heap := h; outs := m; trace := t |}.

Definition record (w : World Ω) (ev : Event) : World Ω :=
  let 'Build_World _ s ω h o t := w in
  {| original_alloc_ := s; env := ω; heap := h; outs := o; trace := t ++ [ev] |}.

Context (E : Runtime Ω).

(** The effect of one operation.  [None] is undefined behaviour: an
    access through a pointer to no live [extent_hooks_t]. *)
Definition effect (e : Op) (w : World Ω) : option (answer e * World Ω) :=
  match e return option (answer e * World Ω) with
  | AtomicLoad => Some (original_alloc_ w, w)
  | CompareExchangeStrong expected desired =>
      if original_alloc_ w =? expected
      then Some ((true, expected), set_original_alloc w desired)
      else Some ((false, original_alloc_ w), w)
  | Mallctl name oldp newp =>
      let '(ret, val, ω) := mallctl E name oldp newp (env w) in
      Some ((ret, val), set_env w ω)
  | Mallocx size flags =>
      let '(p, ω) := mallocx E size flags (env w) in Some (p, set_env w ω)
  | Dallocx p flags => Some ((), set_env w (dallocx E p flags (env w)))
  | MallocUsableSize p =>
      let '(n, ω) := malloc_usable_size E p (env w) in Some (n, set_env w ω)
  | CallExtentAlloc f a =>
      let '(r, ω) := extent_alloc E f a (env w) in Some (r, set_env w ω)
  | Madvise addr len advice =>
      let '(ret, ω) := madvise E addr len advice (env w) in Some (ret, set_env w ω)
  | FprintfStderr _ _ => Some ((), w)
  | RocksLogError _ _ _ => Some ((), w)
  | ReadExtentHooks p =>
      match heap w !! p with Some h => Some (h, w) | None => None end
  | NewExtentHooks h =>
      let p := fresh ({[nullptr]} ∪ dom (heap w)) in
      Some (p, set_heap w (<[p := h]> (heap w)))
  | WriteAlloc p f =>
      match heap w !! p with
      | Some h => Some ((), set_heap w (<[p := set_alloc h f]> (heap w)))
      | None => None
      end
  | DeleteExtentHooks p =>
      match heap w !! p with
      | Some _ => Some ((), set_heap w (delete p (heap w)))
      | None => None
      end
  | AssignOut out a =>
      (* the variable holds the new allocator; what it owned alone is
         handed back, to be destroyed *)
      Some (outs w !! out, set_outs w (<[out := a]> (outs w)))
  end.

(** One operation: its effect, recorded in the trace. *)
Definition handle (e : Op) (w : World Ω) : option (answer e * World Ω) :=
  match effect e w with
  | Some (x, w') => Some (x, record w' (e ↦ x))
  | None => None
  end.

(** How a call ends. *)
Inductive outcome (A : Type) : Type :=
  | Returned (a : A) (w : World Ω)
  | Aborted (w : World Ω)        (* a failed assertion *)
  | Undefined.                   (* undefined behaviour *)

Fixpoint run {A} (p : Prog A) (w : World Ω) : outcome A :=
  match p with
  | Ret a => Returned A a w
  | Crash => Aborted A w
  | Vis e k =>
      match handle e w with
      | Some (x, w') => run (k x) w'
      | None => Undefined A
      end
  end.

End World.

Arguments Returned {Ω A} a w.
Arguments Aborted {Ω A} w.
Arguments Undefined {Ω A}.

(** ** Threads *)

(** Calls running in several threads of one process.  Every operation is
    atomic; a schedule names the thread that performs the next one.  (The
    only object the threads of this file share on purpose is the atomic
    [original_alloc_], and the operations on one atomic object are totally
    ordered.)  A failed assertion in any thread ends the process: nothing
    runs after it.  The labels keep, per step, the thread and what it
    did. *)
Section Threads.
Context {Ω : Type} (E : Runtime Ω) {R : Type}.

Definition crashed (p : Prog R) : bool :=
  match p with Crash => true | _ => false end.

Definition pool_step (i : nat) (w : World Ω) (ts : list (Prog R))
  : option ((nat * Event) * (World Ω * list (Prog R))) :=
  if existsb crashed ts then None else
  match ts !! i with
  | Some (Vis e k) =>
      match handle E e w with
      | Some (x, w') => Some ((i, e ↦ x), (w', <[i := k x]> ts))
      | None => None
      end
  | _ => None
  end.

Fixpoint pool_exec (sched : list nat) (w : World Ω) (ts : list (Prog R))
  : option (list (nat * Event) * (World Ω * list (Prog R))) :=
  match sched with
  | [] => Some ([], (w, ts))
  | i :: sched' =>
      match pool_step i w ts with
      | Some (l, (w', ts')) =>
          match pool_exec sched' w' ts' with
          | Some (ls, st) => Some (l :: ls, st)
          | None => None
          end
      | None => None
      end
  end.

End Threads.

(** What a step did to [original_alloc_], if it was the compare-exchange:
    the value it expected, the value it wanted to install, whether it
    installed it. *)
Definition cas_of (ev : Event) : option (Z * Z * bool) :=
  match ev with
  | existT (CompareExchangeStrong expected desired) x => Some (expected, desired, x.1)
  | _ => None
  end.

(** The calls to [mallctl] among some events: name, [oldp] given, [newp],
    return value. *)
Definition mallctl_of (ev : Event) : option (string * bool * option Z * Z) :=
  match ev with
  | existT (Mallctl name oldp newp) x => Some (name, oldp, newp, x.1)
  | _ => None
  end.

Definition mallctl_calls (evs : list Event) : list (string * bool * option Z * Z) :=
  omap mallctl_of evs.

(** ** A toy runtime

    A small jemalloc and OS to run the code on: arenas are numbered from 1,
    every arena starts with the default hook table at [default_hooks_at],
    blocks are handed out at fresh addresses with sizes rounded up to a
    multiple of 16, and the return values of [mallctl] and [madvise] are
    chosen by the caller of [toy]. *)
Module Toy.

Record state := { arenas : Z; blocks : gmap Z Z }.

Definition default_hooks_at : Z := 4096.

Definition default_hooks : extent_hooks_t :=
  {| alloc := 101; dalloc := 102; destroy := 103; commit := 104;
     decommit := 105; purge_lazy := 106; purge_forced := 107;
     split := 108; merge := 109 |}.

Definition round16 (n : Z) : Z := (n + 15) / 16 * 16.

Definition toy (mallctl_ret : string → bool → Z) (madvise_ret : Z)
  : Runtime state :=
  {| mallctl := λ name oldp newp s,
       let ret := mallctl_ret name oldp in
       if String.eqb name "arenas.create" then
         if ret =? 0
         then (ret, arenas s + 1, {| arenas := arenas s + 1; blocks := blocks s |})
         else (ret, 0, s)
       else if oldp then (ret, default_hooks_at, s)
       else (ret, 0, s);
     mallocx := λ size flags s,
       let p := fresh ({[nullptr]} ∪ dom (blocks s)) in
       (p, {| arenas := arenas s; blocks := <[p := round16 size]> (blocks s) |});
     dallocx := λ p flags s,
       {| arenas := arenas s; blocks := delete p (blocks s) |};
     malloc_usable_size := λ p s, (default 0 (blocks s !! p), s);
     extent_alloc := λ f a s,
       (if f =? alloc default_hooks then 65536 else nullptr, a_zero a, a_commit a, s);
     madvise := λ addr len advice s, (madvise_ret, s) |}.

Definition all_ok : string → bool → Z := λ _ _, 0.

(** Reading an arena's hooks fails with 13. *)
Definition read_fails : string → bool → Z :=
  λ name oldp, if oldp && negb (String.eqb name "arenas.create") then 13 else 0.

(** Every request without [oldp] (writing hooks, destroying) fails with 14. *)
Definition write_fails : string → bool → Z :=
  λ name oldp, if oldp then 0 else 14.

Definition config : Config :=
  {| ROCKSDB_JEMALLOC_NODUMP_ALLOCATOR := true;
     Alloc_address := 7777;
     ToString := pretty;
     MALLOCX_ARENA := λ a, Z.shiftl (a + 1) 20;
     MALLOCX_TCACHE_NONE := 256;
     MADV_DONTDUMP := 16 |}.

Definition unsupported : Config :=
  {| ROCKSDB_JEMALLOC_NODUMP_ALLOCATOR := false;
     Alloc_address := 7777;
     ToString := pretty;
     MALLOCX_ARENA := λ a, Z.shiftl (a + 1) 20;
     MALLOCX_TCACHE_NONE := 256;
     MADV_DONTDUMP := 16 |}.

(** A process that has not yet created an allocator. *)
Definition start : World state :=
  {| original_alloc_ := nullptr;
     env := {| arenas := 0; blocks := ∅ |};
     heap := {[ default_hooks_at := default_hooks ]};
     outs := ∅;
     trace := [] |}.

Definition options : JemallocNodumpAllocatorOptions := {| info_log := 1 |}.

(** The process after one successful call with output at 500, and the
    allocator the output then holds. *)
Definition created : World state :=
  match run (toy all_ok 0) (NewJemallocNodumpAllocator config options 500) start with
  | Returned _ w => w
  | _ => start
  end.

Definition allocator : JemallocNodumpAllocator :=
  default {| arena_index_ := 0; flags_ := 0; hooks_ := 0; info_log_ := 0 |}
          (outs created !! 500).

End Toy.


(** ** What the code expects of its collaborators *)

(** Modelled from the spec: what jemalloc's [mallocx] and
    [malloc_usable_size], which are not part of this repository, promise:
    the usable size of a block is the requested size or more (sizes are
    rounded up to a size class). *)
Definition usable_size_contract {Ω} (E : Runtime Ω) : Prop :=
  ∀ size flags ω p ω',
    mallocx E size flags ω = (p, ω') → p ≠ nullptr →
    size ≤ (malloc_usable_size E p ω').1.

(** What the class keeps true of an allocator that an output variable
    owns: its arena index is not 0 and [hooks_] owns a live table.  An
    output is fit to be assigned to when it is empty, or owns such an
    allocator. *)
Definition output_ok {Ω} (w : World Ω) (out : Z) : Prop :=
  ∀ old, outs w !! out = Some old →
    arena_index_ old ≠ 0
    ∧ hooks_ old ≠ nullptr
    ∧ is_Some (heap w !! hooks_ old).

(** ** The discipline of [original_alloc_] *)

(** A program keeps the discipline when every compare-exchange it makes
    expects null, and one that finds a value other than the one it wanted
    to install is followed by a failed assertion. *)
Fixpoint cas_guarded {A} (p : Prog A) : Prop :=
  match p with
  | Ret _ | Crash => True
  | Vis e k =>
      (∀ x, cas_guarded (k x)) ∧
      match e return (answer e → Prog A) → Prop with
      | CompareExchangeStrong expected desired => λ k,
          expected = nullptr ∧ ∀ seen, seen ≠ desired → k (false, seen) = Crash
      | _ => λ _, True
      end k
  end.

(** What is known of a compare-exchange a thread has made, in a later
    state of the process: it expected null; if it installed a non-null
    function, that function is still in the slot; if it did not install,
    the slot holds the function it wanted to install, or the thread has
    failed its assertion. *)
Definition cas_settled {Ω R} (w : World Ω) (ts : list (Prog R)) (l : nat * Event)
  : Prop :=
  ∀ e d b, cas_of l.2 = Some (e, d, b) →
    e = nullptr
    ∧ (b = true → d ≠ nullptr → original_alloc_ w = d)
    ∧ (b = false →
         (original_alloc_ w = d ∧ d ≠ nullptr)
         ∨ ∃ p, ts !! l.1 = Some p ∧ crashed p = true).

Definition pool_inv {Ω R} (w : World Ω) (ts : list (Prog R))
    (hist : list (nat * Event)) : Prop :=
  Forall cas_guarded ts ∧ Forall (cas_settled w ts) hist.

(** ** Proof automation *)

(** Unfolds one step of [run] and computes the effect of the operation. *)
Ltac run_step := cbn; unfold handle; cbn.

(** Symbolic execution of a call: splits on the answers of the
    collaborators and on the tests the code makes on them. *)
Ltac exec_split :=
  match goal with
  | |- context [mallctl ?E ?n ?o ?p ?s] =>
      let H := fresh "Hctl" in
      destruct (mallctl E n o p s) as [[? ?] ?] eqn:H
  | |- context [negb (?a =? ?b)] => destruct (Z.eqb_spec a b)
  | |- context [if ?a =? ?b then _ else _] => destruct (Z.eqb_spec a b)
  | |- context [match ?m !! ?p with _ => _ end] =>
      let H := fresh "Hheap" in destruct (m !! p) eqn:H
  end.

Ltac exec_known :=
  match goal with
  | H : mallctl ?E ?n ?o ?p ?s = _ |- context [mallctl ?E ?n ?o ?p ?s] => rewrite H
  | H : ?m !! ?p = _ |- context [?m !! ?p] => rewrite H
  end.

Ltac exec :=
  unfold release, JemallocNodumpAllocator_dtor, JemallocNodumpAllocator_ctor,
    assert_;
  repeat (run_step; rewrite ?lookup_insert_eq; cbn;
          try first [exec_known | exec_split]; simplify_eq; cbn).


(** ** Calls that leave the slot alone *)

(** A program that makes no compare-exchange. *)
Fixpoint cas_free {A} (p : Prog A) : Prop :=
  match p with
  | Ret _ | Crash => True
  | Vis e k =>
      match e with CompareExchangeStrong _ _ => False | _ => True end
      ∧ ∀ x, cas_free (k x)
  end.

Definition is_new (c : Call) : bool :=
  match c with CallNew _ _ => true | _ => false end.

(** * Properties *)

(** ** Running programs *)

Section Run.
Context {Ω : Type} (E : Runtime Ω).

Lemma run_bind {A B} (p : Prog A) (f : A → Prog B) (w : World Ω) :
  run E (p ≫= f) w =
    match run E p w with
    | Returned a w' => run E (f a) w'
    | Aborted w' => Aborted w'
    | Undefined => Undefined
    end.
Proof.
  revert w. induction p as [a|e k IH|]; intros w; cbn; [done| |done].
  destruct (handle E e w) as [[x w']|]; [apply IH|done].
Qed.

Lemma handle_trace (e : Op) (w w' : World Ω) (x : answer e) :
  handle E e w = Some (x, w') → trace w' = trace w ++ [e ↦ x].
Proof.
  destruct w as [s ω h o t].
  unfold handle. destruct (effect E e _) as [[y v]|] eqn:He; [|done].
  intros [= <- <-].
  destruct e; cbn in He;
    repeat match type of He with
           | context [let '(_, _) := ?t in _] => destruct t
           | context [match ?t with _ => _ end] => destruct t
           end; by simplify_eq.
Qed.

(** A call only adds to the trace: what it did is what comes after the
    trace it started with. *)
Lemma run_trace {A} (p : Prog A) (w : World Ω) :
  match run E p w with
  | Returned _ w' | Aborted w' => ∃ evs, trace w' = trace w ++ evs
  | Undefined => True
  end.
Proof.
  revert w. induction p as [a|e k IH|]; intros w; cbn.
  - exists []. by rewrite app_nil_r.
  - destruct (handle E e w) as [[x w1]|] eqn:He; [|done].
    apply handle_trace in He. specialize (IH x w1).
    destruct (run E (k x) w1) as [b w'|w'|]; [| |done].
    all: destruct IH as [evs ->]; exists ((e ↦ x) :: evs).
    all: by rewrite He, <- app_assoc.
  - exists []. by rewrite app_nil_r.
Qed.

End Run.

(** ** The extent-allocation interceptor *)

Section Interceptor.
Context {Ω : Type} (E : Runtime Ω) (cfg : Config).

(** C3.  [Alloc] loads [original_alloc_] and asserts it is not null (with
    a null slot it stops at the assertion, before any call); otherwise it
    calls the original function once, with exactly the arguments it
    received, and where it returns it returns what that call gave back:
    the pointer and the values behind [zero] and [commit].  It returns
    exactly when the assertions hold: the slot is set, and the result is
    null or [madvise] gave 0. *)
Theorem Alloc_delegates_to_original
    (extent new_addr size alignment : Z) (zero commit : bool) (arena_ind : Z)
    (w : World Ω) :
  let f := original_alloc_ w in
  let a := {| a_extent := extent; a_new_addr := new_addr; a_size := size;
              a_alignment := alignment; a_zero := zero; a_commit := commit;
              a_arena_ind := arena_ind |} in
  let r := (extent_alloc E f a (env w)).1 in
  let ω1 := (extent_alloc E f a (env w)).2 in
  let ret := (madvise E r.1.1 size (MADV_DONTDUMP cfg) ω1).1 in
  match run E (Alloc cfg extent new_addr size alignment zero commit arena_ind) w with
  | Returned x w' =>
      f ≠ nullptr ∧ x = r ∧ (r.1.1 = nullptr ∨ ret = 0) ∧
      ∃ rest, trace w' = trace w ++ [AtomicLoad ↦ f; CallExtentAlloc f a ↦ r] ++ rest
              ∧ (rest = [] ∨ rest = [Madvise r.1.1 size (MADV_DONTDUMP cfg) ↦ ret])
  | Aborted w' =>
      (f = nullptr ∧ trace w' = trace w ++ [AtomicLoad ↦ f])
      ∨ (f ≠ nullptr ∧ r.1.1 ≠ nullptr ∧ ret ≠ 0)
  | Undefined => False
  end.
Proof.
  intros f a r ω1 ret. subst f a r ω1 ret.
  destruct w as [slot ω0 hp os tr]. cbn. unfold Alloc. run_step.
  destruct (Z.eqb_spec slot nullptr) as [Hf|Hf]; cbn.
  { by left. }
  run_step. destruct (extent_alloc E slot _ ω0) as [r ω1]. cbn.
  destruct (Z.eqb_spec r.1.1 nullptr) as [Hr|Hr]; cbn.
  { split_and!; [done|done|by left|]. exists []. split; [|by left].
    by rewrite <- app_assoc. }
  run_step.
  destruct (madvise E r.1.1 size (MADV_DONTDUMP cfg) ω1) as [ret ω2]. cbn.
  destruct (Z.eqb_spec ret 0) as [Hret|Hret]; cbn.
  - split_and!; [done|done|by right|].
    eexists. split; [|by right]. by rewrite <- !app_assoc.
  - run_step. by right.
Qed.

(** C1.  When the original function returns a non-null extent and
    [madvise(result, size, MADV_DONTDUMP)] does not return 0, [Alloc]
    writes its message to stderr and fails an assertion: the call does
    not return.  So wherever [Alloc] returns a non-null extent, the last
    thing it did was a [madvise] of exactly that extent and size that
    returned 0. *)
Theorem Alloc_madvise_failure_is_fatal
    (extent new_addr size alignment : Z) (zero commit : bool) (arena_ind : Z)
    (w : World Ω) :
  let f := original_alloc_ w in
  let a := {| a_extent := extent; a_new_addr := new_addr; a_size := size;
              a_alignment := alignment; a_zero := zero; a_commit := commit;
              a_arena_ind := arena_ind |} in
  let r := (extent_alloc E f a (env w)).1 in
  let ω1 := (extent_alloc E f a (env w)).2 in
  let ret := (madvise E r.1.1 size (MADV_DONTDUMP cfg) ω1).1 in
  let prog := Alloc cfg extent new_addr size alignment zero commit arena_ind in
  (f ≠ nullptr → r.1.1 ≠ nullptr → ret ≠ 0 →
     ∃ w', run E prog w = Aborted w' ∧
       trace w' = trace w ++
         [AtomicLoad ↦ f; CallExtentAlloc f a ↦ r;
          Madvise r.1.1 size (MADV_DONTDUMP cfg) ↦ ret;
          FprintfStderr
            "JemallocNodumpAllocator failed to set MADV_DONTDUMP, error code: %d"
            ret ↦ ()])
  ∧ (∀ x w', run E prog w = Returned x w' → x.1.1 ≠ nullptr →
       ∃ before, trace w' = trace w ++ before ++
                   [Madvise x.1.1 size (MADV_DONTDUMP cfg) ↦ 0]).
Proof.
  intros f a r ω1 ret prog. subst f a r ω1 ret prog.
  destruct w as [slot ω0 hp os tr]. cbn. unfold Alloc. split.
  - intros Hf Hr Hret. run_step.
    destruct (Z.eqb_spec slot nullptr) as [|_]; [done|]. cbn.
    run_step. destruct (extent_alloc E slot _ ω0) as [r ω1]. cbn in *.
    destruct (Z.eqb_spec r.1.1 nullptr) as [|_]; [done|]. cbn.
    run_step. destruct (madvise E r.1.1 size (MADV_DONTDUMP cfg) ω1) as [ret ω2].
    cbn in *. destruct (Z.eqb_spec ret 0) as [|_]; [done|]. cbn.
    run_step. eexists. split; [done|]. cbn. by rewrite <- !app_assoc.
  - intros x w'. run_step.
    destruct (Z.eqb_spec slot nullptr) as [|_]; [done|]. cbn.
    run_step. destruct (extent_alloc E slot _ ω0) as [r ω1]. cbn.
    destruct (Z.eqb_spec r.1.1 nullptr) as [Hr|_]; cbn.
    { by intros [= <- <-]. }
    run_step. destruct (madvise E r.1.1 size (MADV_DONTDUMP cfg) ω1) as [ret ω2].
    cbn. destruct (Z.eqb_spec ret 0) as [->|_]; cbn; [|done].
    intros [= <- <-] _. cbn.
    eexists [AtomicLoad ↦ _; CallExtentAlloc _ _ ↦ _]. by rewrite <- !app_assoc.
Qed.

End Interceptor.

(** ** The allocator object *)

Section Allocator.
Context {Ω : Type} (E : Runtime Ω) (cfg : Config).

(** C9.  With a jemalloc that keeps its contract, a block that
    [Allocate n] returned has a [UsableSize] of at least [n], whatever
    allocation size the caller passes along. *)
Theorem UsableSize_at_least_requested
    (this : JemallocNodumpAllocator) (n m p : Z) (w w' : World Ω) :
  usable_size_contract E →
  run E (Allocate this n) w = Returned p w' →
  p ≠ nullptr →
  ∃ s w'', run E (UsableSize this p m) w' = Returned s w'' ∧ n ≤ s.
Proof.
  intros Hjemalloc Hrun Hp. unfold Allocate, UsableSize in *.
  destruct w as [slot ω0 hp os tr]. revert Hrun. run_step.
  destruct (mallocx E n (flags_ this) ω0) as [q ω1] eqn:Hm. cbn.
  intros [= -> <-]. run_step.
  specialize (Hjemalloc _ _ _ _ _ Hm Hp).
  destruct (malloc_usable_size E p ω1) as [s ω2]. cbn in *. eauto.
Qed.

(** C10.  [UsableSize] does not look at the allocation size it is given:
    the call is the same program for any two sizes, it only asks
    [malloc_usable_size] about the pointer, and returns its answer. *)
Theorem UsableSize_ignores_allocation_size
    (this : JemallocNodumpAllocator) (p s1 s2 : Z) (w : World Ω) :
  UsableSize this p s1 = UsableSize this p s2
  ∧ run E (UsableSize this p s1) w = run E (UsableSize this p s2) w
  ∧ ∃ w', run E (UsableSize this p s1) w
            = Returned (malloc_usable_size E p (env w)).1 w'
          ∧ trace w' = trace w ++
              [MallocUsableSize p ↦ (malloc_usable_size E p (env w)).1].
Proof.
  split_and!; [done|done|]. unfold UsableSize.
  destruct w as [slot ω0 hp os tr]. run_step.
  destruct (malloc_usable_size E p ω0) as [n ω1]. cbn. eauto.
Qed.

(** C8.  The destructor of an allocator (arena index not 0, as the
    constructor asserts; [hooks_] empty or owning a live table) asks
    jemalloc exactly once, for "arena.<index>.destroy".  Whatever that
    call returns, the destructor returns; a return value other than 0 is
    only handed to the logger. *)
Theorem destructor_destroys_arena_once
    (this : JemallocNodumpAllocator) (w : World Ω) :
  arena_index_ this ≠ 0 →
  hooks_ this = nullptr ∨ is_Some (heap w !! hooks_ this) →
  let key := "arena." +:+ ToString cfg (arena_index_ this) +:+ ".destroy" in
  let r := (mallctl E key false None (env w)).1 in
  ∃ w', run E (JemallocNodumpAllocator_dtor cfg this) w = Returned () w'
    ∧ trace w' = trace w
        ++ [Mallctl key false None ↦ r]
        ++ (if r.1 =? 0 then []
            else [RocksLogError (info_log_ this)
                    "Failed to destroy arena, error code: %d" r.1 ↦ ()])
        ++ (if hooks_ this =? nullptr then []
            else [DeleteExtentHooks (hooks_ this) ↦ ()])
    ∧ mallctl_calls (drop (length (trace w)) (trace w'))
        = [(key, false, None, r.1)].
Proof.
  intros Hidx Hhooks key r. subst r. unfold JemallocNodumpAllocator_dtor.
  destruct w as [slot ω0 hp os tr]. cbn in *. unfold assert_.
  destruct (Z.eqb_spec (arena_index_ this) 0) as [|_]; [done|]. run_step.
  fold key. destruct (mallctl E key false None ω0) as [[ret v] ω1]. cbn.
  destruct (Z.eqb_spec ret 0) as [Hret|Hret];
    destruct (Z.eqb_spec (hooks_ this) nullptr) as [Hn|Hn]; run_step.
  all: try (destruct Hhooks as [|[h ->]]; [done|]; cbn).
  all: eexists; split; [done|]; cbn; rewrite <- ?app_assoc.
  all: split; [done|]; by rewrite drop_app_length.
Qed.

End Allocator.

(** ** The arena provisioner *)

(** The names of the requests: creating an arena and reading or writing
    its hooks is not destroying it. *)
Lemma create_is_not_destroy (s : string) :
  "arenas.create" ≠ "arena." +:+ s +:+ ".destroy".
Proof. cbn. by intros [=]. Qed.

Lemma extent_hooks_is_not_destroy (s : string) :
  "arena." +:+ s +:+ ".extent_hooks" ≠ "arena." +:+ s +:+ ".destroy".
Proof. intros H. by do 2 apply (inj (String.app _)) in H. Qed.

(** What [new extent_hooks_t] hands out: an address that is not null and
    at which no table lives. *)
Lemma fresh_hooks (m : gmap Z extent_hooks_t) :
  fresh ({[nullptr]} ∪ dom m) ≠ nullptr ∧ m !! fresh ({[nullptr]} ∪ dom m) = None.
Proof.
  pose proof (is_fresh ({[nullptr]} ∪ dom m)) as Hfresh.
  split; [set_solver|]. apply not_elem_of_dom. set_solver.
Qed.

Section Provisioner.
Context {Ω : Type} (E : Runtime Ω) (cfg : Config).

(** An output that is fit to be assigned to stays so: after a call that
    returns, or stops at an assertion, it is empty or owns an allocator
    with an arena index that is not 0 and a live table of its own. *)
Lemma create_keeps_output_ok
    (options : JemallocNodumpAllocatorOptions) (out : Z) (w : World Ω) :
  output_ok w out →
  match run E (NewJemallocNodumpAllocator cfg options out) w with
  | Returned _ w' | Aborted w' => output_ok w' out
  | Undefined => True
  end.
Proof.
  intros Hfit. unfold NewJemallocNodumpAllocator.
  destruct w as [slot ω0 hp os tr]. unfold output_ok in *. cbn in *.
  destruct (fresh_hooks hp) as [Hnew Hlive].
  destruct (ROCKSDB_JEMALLOC_NODUMP_ALLOCATOR cfg); cbn; [|done].
  destruct (os !! out) as [old|] eqn:Hold.
  - destruct (Hfit old eq_refl) as (Hoidx & Honn & [t Ht]).
    assert (fresh ({[nullptr]} ∪ dom hp) ≠ hooks_ old) as Hne by congruence.
    exec; try done.
    all: rewrite ?insert_insert_eq, ?delete_insert_id by done.
    all: try exact Hfit.
    all: intros old' [= <-]; cbn.
    all: rewrite lookup_delete_ne, lookup_insert_eq by done.
    all: by split_and!.
  - exec; try done.
    all: rewrite ?insert_insert_eq, ?delete_insert_id by done.
    all: try done.
    all: intros old' [= <-]; cbn.
    all: rewrite lookup_insert_eq.
    all: by split_and!.
Qed.

(** C4.  A call with a non-null output parameter that is empty, or owns
    an allocator as the class leaves it, and that returns, does so in
    one of two ways.  With OK: the output holds an allocator with the
    arena index jemalloc gave, which is not 0, with the flags and logger,
    and with a non-null [hooks_] that owns a table created by this call;
    the tables are those from before, with the new one added and the one
    of the allocator the output owned before released.  With Incomplete
    or NotSupported: the output is as before and no table is left behind.
    Where the arena was created and the call returns at all, the index
    is not 0: the code asserts it.  A call that does not return stopped
    at an assertion (a zero index, or an [original_alloc_] already in
    use) with the output as before, or dereferenced the pointer
    [mallctl] gave for the hooks. *)
Theorem create_result
    (options : JemallocNodumpAllocatorOptions) (out : Z) (w : World Ω) :
  out ≠ nullptr →
  output_ok w out →
  let prog := NewJemallocNodumpAllocator cfg options out in
  let c := (mallctl E "arenas.create" true None (env w)).1 in
  (∀ st w', run E prog w = Returned st w' →
     (code st = kOk ∧
      ∃ a h, outs w' = <[out := a]> (outs w)
        ∧ arena_index_ a = c.2 ∧ arena_index_ a ≠ 0
        ∧ flags_ a = Z.lor (MALLOCX_ARENA cfg (arena_index_ a))
                           (MALLOCX_TCACHE_NONE cfg)
        ∧ info_log_ a = info_log options
        ∧ hooks_ a ≠ nullptr
        ∧ heap w !! hooks_ a = None
        ∧ heap w' !! hooks_ a = Some h
        ∧ heap w'
          = match outs w !! out with
            | Some old => delete (hooks_ old) (<[hooks_ a := h]> (heap w))
            | None => <[hooks_ a := h]> (heap w)
            end
        ∧ alloc h = Alloc_address cfg)
     ∨ ((code st = kIncomplete ∨ code st = kNotSupported)
        ∧ outs w' = outs w ∧ heap w' = heap w))
  ∧ (∀ st w', run E prog w = Returned st w' →
       ROCKSDB_JEMALLOC_NODUMP_ALLOCATOR cfg = true → c.1 = 0 → c.2 ≠ 0)
  ∧ (∀ w', run E prog w = Aborted w' →
       outs w' = outs w ∧ c.1 = 0 ∧ (c.2 = 0 ∨ original_alloc_ w ≠ nullptr))
  ∧ (run E prog w = Undefined → c.1 = 0 ∧ c.2 ≠ 0).
Proof.
  intros Hout Hfit prog c. subst prog c. unfold NewJemallocNodumpAllocator.
  destruct w as [slot ω0 hp os tr]. unfold output_ok in Hfit. cbn in *.
  destruct (fresh_hooks hp) as [Hnew Hlive].
  destruct (ROCKSDB_JEMALLOC_NODUMP_ALLOCATOR cfg); cbn.
  2: { split_and!; try done. intros st w' [= <- <-]. right. eauto. }
  destruct (os !! out) as [old|] eqn:Hold.
  - destruct (Hfit old eq_refl) as (Hoidx & Honn & [t Ht]).
    assert (fresh ({[nullptr]} ∪ dom hp) ≠ hooks_ old) as Hne by congruence.
    split_and!.
    + intros st w'. exec; try done; intros [= <- <-]; cbn.
      all: try (right; split_and!; [by eauto|done|];
                by rewrite ?insert_insert_eq, ?delete_insert_id).
      all: try (rewrite lookup_insert_ne in * by done; congruence).
      all: left; split; [done|].
      all: match goal with
           | Hc : mallctl E "arenas.create" true None _ = (0, ?i, _)
             |- context [set_alloc ?e _] =>
               exists {| arena_index_ := i;
                         flags_ := Z.lor (MALLOCX_ARENA cfg i)
                                         (MALLOCX_TCACHE_NONE cfg);
                         hooks_ := fresh ({[nullptr]} ∪ dom hp);
                         info_log_ := info_log options |},
                      (set_alloc e (Alloc_address cfg))
           end; cbn.
      all: rewrite insert_insert_eq, lookup_delete_ne, lookup_insert_eq by done.
      all: by split_and!.
    + intros st w'. exec; try done.
    + intros w'. exec; try done; intros [= <-]; cbn; eauto.
    + exec; try done.
      all: rewrite lookup_insert_ne in * by done; congruence.
  - split_and!.
    + intros st w'. exec; try done; intros [= <- <-]; cbn.
      all: try (right; split_and!; [by eauto|done|];
                by rewrite ?insert_insert_eq, ?delete_insert_id).
      all: left; split; [done|].
      all: match goal with
           | Hc : mallctl E "arenas.create" true None _ = (0, ?i, _)
             |- context [set_alloc ?e _] =>
               exists {| arena_index_ := i;
                         flags_ := Z.lor (MALLOCX_ARENA cfg i)
                                         (MALLOCX_TCACHE_NONE cfg);
                         hooks_ := fresh ({[nullptr]} ∪ dom hp);
                         info_log_ := info_log options |},
                      (set_alloc e (Alloc_address cfg))
           end; cbn.
      all: rewrite insert_insert_eq, lookup_insert_eq.
      all: by split_and!.
    + intros st w'. exec; try done.
    + intros w'. exec; try done; intros [= <-]; cbn; eauto.
    + exec; try done.
Qed.

(** C5.  Where the allocator is compiled in, a call with a null output
    parameter returns InvalidArgument, and it is a plain return: it
    performs no operation at all (no arena is created, no hook table is
    read or written, [original_alloc_] is not touched) and leaves the
    world as it was. *)
Theorem create_null_output
    (options : JemallocNodumpAllocatorOptions) (w : World Ω) :
  ROCKSDB_JEMALLOC_NODUMP_ALLOCATOR cfg = true →
  let prog := NewJemallocNodumpAllocator cfg options nullptr in
  prog = Ret (Status_InvalidArgument "cache_allocator is nullptr.")
  ∧ run E prog w
    = Returned (Status_InvalidArgument "cache_allocator is nullptr.") w.
Proof.
  intros Hbuild prog. subst prog. unfold NewJemallocNodumpAllocator.
  by rewrite Hbuild.
Qed.

(** Where the allocator is not compiled in, every call is a plain return
    of NotSupported, whatever the output parameter. *)
Lemma create_not_supported
    (options : JemallocNodumpAllocatorOptions) (out : Z) (w : World Ω) :
  ROCKSDB_JEMALLOC_NODUMP_ALLOCATOR cfg = false →
  ∃ m, NewJemallocNodumpAllocator cfg options out = Ret (Status_NotSupported m)
       ∧ run E (NewJemallocNodumpAllocator cfg options out) w
         = Returned (Status_NotSupported m) w.
Proof.
  intros Hbuild. unfold NewJemallocNodumpAllocator. rewrite Hbuild. cbn. eauto.
Qed.

(** C6.  A successful call, into an output that is empty or owns an
    allocator as the class leaves it, begins with exactly these nine
    operations; what follows them is the destruction of the allocator
    the output owned before, if it owned one.  The table the call
    installs into the new arena, the one [hooks_] owns, was created as a
    copy of the table [orig] the arena had, and then only its [alloc]
    entry was written: it points to [Alloc], and every other entry is
    the one of [orig].  The arena's original table is left as it was
    (unless it was the table of the allocator that the assignment
    released). *)
Theorem replacement_hooks_copy
    (options : JemallocNodumpAllocatorOptions) (out : Z) (w w' : World Ω)
    (st : Status) :
  output_ok w out →
  run E (NewJemallocNodumpAllocator cfg options out) w = Returned st w' →
  code st = kOk →
  ∃ a hooks orig new c v rest,
    let key := "arena." +:+ ToString cfg (arena_index_ a) +:+ ".extent_hooks" in
    outs w' !! out = Some a
    ∧ drop (length (trace w)) (trace w') =
        [Mallctl "arenas.create" true None ↦ (0, arena_index_ a);
         Mallctl key true None ↦ (0, hooks);
         ReadExtentHooks hooks ↦ orig;
         CompareExchangeStrong nullptr (alloc orig) ↦ c;
         ReadExtentHooks hooks ↦ orig;
         NewExtentHooks orig ↦ hooks_ a;
         WriteAlloc (hooks_ a) (Alloc_address cfg) ↦ ();
         Mallctl key false (Some (hooks_ a)) ↦ (0, v);
         AssignOut out a ↦ outs w !! out] ++ rest
    ∧ match outs w !! out with
      | None => rest = []
      | Some old =>
          ∃ r, rest =
            [Mallctl ("arena." +:+ ToString cfg (arena_index_ old) +:+ ".destroy")
               false None ↦ r]
            ++ (if r.1 =? 0 then []
                else [RocksLogError (info_log_ old)
                        "Failed to destroy arena, error code: %d" r.1 ↦ ()])
            ++ [DeleteExtentHooks (hooks_ old) ↦ ()]
      end
    ∧ heap w !! hooks = Some orig
    ∧ ((∀ old, outs w !! out = Some old → hooks_ old ≠ hooks) →
       heap w' !! hooks = Some orig)
    ∧ heap w' !! hooks_ a = Some new
    ∧ alloc new = Alloc_address cfg
    ∧ dalloc new = dalloc orig
    ∧ destroy new = destroy orig
    ∧ commit new = commit orig
    ∧ decommit new = decommit orig
    ∧ purge_lazy new = purge_lazy orig
    ∧ purge_forced new = purge_forced orig
    ∧ split new = split orig
    ∧ merge new = merge orig.
Proof.
  intros Hfit. unfold NewJemallocNodumpAllocator.
  destruct w as [slot ω0 hp os tr]. unfold output_ok in Hfit. cbn in *.
  destruct (fresh_hooks hp) as [Hnew Hlive].
  destruct (ROCKSDB_JEMALLOC_NODUMP_ALLOCATOR cfg); cbn;
    [|by intros [= <- <-]].
  destruct (os !! out) as [old|] eqn:Hold.
  - destruct (Hfit old eq_refl) as (Hoidx & Honn & [t Ht]).
    assert (fresh ({[nullptr]} ∪ dom hp) ≠ hooks_ old) as Hne by congruence.
    exec; try done; intros [= <- <-]; try done; intros _; cbn.
    all: try (rewrite lookup_insert_ne in * by done; congruence).
    all: match goal with
         | Hc : mallctl E _ true None _ = (0, ?hooks, _),
           Hh : _ !! ?hooks = Some ?orig |- _ =>
             eexists _, hooks, orig, (set_alloc orig (Alloc_address cfg)), _, _, _
         end; cbn.
    all: rewrite insert_insert_eq.
    all: split; [apply lookup_insert_eq|]; cbn.
    all: rewrite <- !app_assoc, drop_app_length; cbn.
    all: split; [reflexivity|].
    all: split;
      [match goal with
       | Hd : mallctl E _ false None _ = (?r, _) |- _ =>
           exists r; cbn
       end;
       repeat match goal with
              | |- context [?a =? ?b] => destruct (Z.eqb_spec a b); try done
              end; reflexivity|].
    all: split_and!; try done.
    all: try (by rewrite lookup_delete_ne, lookup_insert_eq by done).
    all: intros Hother; specialize (Hother _ eq_refl).
    all: rewrite lookup_delete_ne, lookup_insert_ne by congruence; done.
  - exec; try done; intros [= <- <-]; try done; intros _; cbn.
    all: match goal with
         | Hc : mallctl E _ true None _ = (0, ?hooks, _),
           Hh : _ !! ?hooks = Some ?orig |- _ =>
             eexists _, hooks, orig, (set_alloc orig (Alloc_address cfg)), _, _, []
         end; cbn.
    all: rewrite insert_insert_eq.
    all: split; [apply lookup_insert_eq|]; cbn.
    all: rewrite <- !app_assoc, drop_app_length, lookup_insert_eq.
    all: rewrite lookup_insert_ne by congruence.
    all: split_and!; done.
Qed.

(** C7.  Once the arena exists (its index is [idx], not 0), a failing
    read of its hook table, and likewise a failing write of the
    replacement table, makes the call return Incomplete with the return
    value of the failing [mallctl] in the message.  The operations it
    performed are exactly the ones listed: none of its requests to
    jemalloc is "arena.<idx>.destroy", and jemalloc is left in the state
    in which the failing request left it. *)
Theorem create_failure_leaves_arena
    (options : JemallocNodumpAllocatorOptions) (out : Z) (w : World Ω)
    (idx : Z) (ω1 : Ω) :
  ROCKSDB_JEMALLOC_NODUMP_ALLOCATOR cfg = true →
  out ≠ nullptr →
  mallctl E "arenas.create" true None (env w) = (0, idx, ω1) →
  idx ≠ 0 →
  let prog := NewJemallocNodumpAllocator cfg options out in
  let key := "arena." +:+ ToString cfg idx +:+ ".extent_hooks" in
  let destroy_key := "arena." +:+ ToString cfg idx +:+ ".destroy" in
  let not_destroyed (w' : World Ω) :=
    Forall (λ c, c.1.1.1 ≠ destroy_key)
           (mallctl_calls (drop (length (trace w)) (trace w'))) in
  (∀ ret hooks ω2,
     mallctl E key true None ω1 = (ret, hooks, ω2) → ret ≠ 0 →
     ∃ w', run E prog w
           = Returned (Status_Incomplete
               ("Failed to read existing hooks, error code: " +:+ ToString cfg ret))
               w'
       ∧ drop (length (trace w)) (trace w') =
           [Mallctl "arenas.create" true None ↦ (0, idx);
            Mallctl key true None ↦ (ret, hooks);
            RocksLogError (info_log options)
              "Failed to read existing hooks, error code: %d" ret ↦ ()]
       ∧ not_destroyed w' ∧ env w' = ω2)
  ∧ (∀ hooks ω2 h ret v ω3,
       mallctl E key true None ω1 = (0, hooks, ω2) →
       heap w !! hooks = Some h →
       original_alloc_ w = nullptr ∨ original_alloc_ w = alloc h →
       let new_hooks := fresh ({[nullptr]} ∪ dom (heap w)) in
       mallctl E key false (Some new_hooks) ω2 = (ret, v, ω3) → ret ≠ 0 →
       ∃ w' c, run E prog w
           = Returned (Status_Incomplete
               ("Failed to set custom hook, error code: " +:+ ToString cfg ret))
               w'
         ∧ drop (length (trace w)) (trace w') =
             [Mallctl "arenas.create" true None ↦ (0, idx);
              Mallctl key true None ↦ (0, hooks);
              ReadExtentHooks hooks ↦ h;
              CompareExchangeStrong nullptr (alloc h) ↦ c;
              ReadExtentHooks hooks ↦ h;
              NewExtentHooks h ↦ new_hooks;
              WriteAlloc new_hooks (Alloc_address cfg) ↦ ();
              Mallctl key false (Some new_hooks) ↦ (ret, v);
              RocksLogError (info_log options)
                "Failed to set custom hook, error code: %d" ret ↦ ();
              DeleteExtentHooks new_hooks ↦ ()]
         ∧ not_destroyed w' ∧ env w' = ω3).
Proof.
  intros Hbuild Hout Hcreate Hidx prog key destroy_key not_destroyed.
  subst prog not_destroyed key destroy_key. unfold NewJemallocNodumpAllocator.
  rewrite Hbuild. destruct w as [slot ω0 hp os tr]. cbn [env heap trace original_alloc_] in *.
  pose proof (create_is_not_destroy (ToString cfg idx)) as Hn1.
  pose proof (extent_hooks_is_not_destroy (ToString cfg idx)) as Hn2.
  split.
  - intros ret hooks ω2 Hread Hret. exec; try done.
    eexists. split; [done|]. cbn.
    rewrite <- !app_assoc, drop_app_length. split_and!; [done| |done].
    cbn. by repeat constructor.
  - intros hooks ω2 h ret v ω3 Hread Hh Hslot Hwrite Hret.
    exec; try done; try (by destruct Hslot).
    all: eexists _, _; split; [done|]; cbn.
    all: rewrite <- !app_assoc, drop_app_length; split_and!; [done| |done].
    all: cbn; by repeat constructor.
Qed.

End Provisioner.

(** ** The slot [original_alloc_] *)

Section Slot.
Context {Ω : Type} (E : Runtime Ω).

Lemma record_original_alloc (w : World Ω) (ev : Event) :
  original_alloc_ (record w ev) = original_alloc_ w.
Proof. by destruct w. Qed.

(** Only the compare-exchange writes the slot. *)
Lemma handle_original_alloc (e : Op) (w w' : World Ω) (x : answer e) :
  handle E e w = Some (x, w') →
  match e return answer e → Prop with
  | CompareExchangeStrong expected desired => λ x,
      (original_alloc_ w = expected ∧ x = (true, expected)
       ∧ original_alloc_ w' = desired)
      ∨ (original_alloc_ w ≠ expected ∧ x = (false, original_alloc_ w)
         ∧ original_alloc_ w' = original_alloc_ w)
  | _ => λ _, original_alloc_ w' = original_alloc_ w
  end x.
Proof.
  unfold handle. destruct (effect E e w) as [[y w1]|] eqn:He; [|done].
  intros [= -> <-]. rewrite record_original_alloc.
  destruct w as [slot ω0 hp os tr].
  destruct e; cbn in *;
    repeat match type of He with
           | context [let '(_, _) := ?t in _] => destruct t
           | context [match ?m !! ?p with _ => _ end] => destruct (m !! p)
           end; simplify_eq; try done.
  destruct (Z.eqb_spec slot expected); simplify_eq; cbn; eauto.
Qed.

Lemma cas_guarded_bind {A B} (p : Prog A) (f : A → Prog B) :
  cas_guarded p → (∀ a, cas_guarded (f a)) → cas_guarded (p ≫= f).
Proof.
  intros Hp Hf. induction p as [a|e k IH|]; cbn; [apply Hf| |done].
  destruct Hp as [Hk He]. split; [intros x; apply IH, Hk|].
  destruct e; try done. destruct He as [-> He]. split; [done|].
  intros seen Hseen. unfold mbind, Prog_bind. by rewrite (He seen Hseen).
Qed.

Context {R : Type}.

Lemma pool_step_original_alloc i (w w' : World Ω) (ts ts' : list (Prog R)) l :
  Forall cas_guarded ts →
  pool_step E i w ts = Some (l, (w', ts')) →
  original_alloc_ w ≠ nullptr → original_alloc_ w' = original_alloc_ w.
Proof.
  intros Hg. unfold pool_step. destruct (existsb crashed ts); [done|].
  destruct (ts !! i) as [[|e k|]|] eqn:Hi; try done.
  destruct (handle E e w) as [[x w1]|] eqn:He; [|done].
  intros [= <- <- <-] Hset. apply handle_original_alloc in He.
  destruct e; try done.
  pose proof (Forall_lookup_1 _ _ _ _ Hg Hi) as Hgi. cbn in Hgi.
  destruct Hgi as [_ [-> _]]. by destruct He as [[? _]|(_ & _ & ?)].
Qed.

Lemma pool_step_inv i (w w' : World Ω) (ts ts' : list (Prog R)) l hist :
  pool_step E i w ts = Some (l, (w', ts')) →
  pool_inv w ts hist → pool_inv w' ts' (hist ++ [l]).
Proof.
  intros Hstep [Hg Hs].
  pose proof (pool_step_original_alloc _ _ _ _ _ _ Hg Hstep) as Hstable.
  revert Hstep. unfold pool_step.
  destruct (existsb crashed ts) eqn:Halive; [done|].
  destruct (ts !! i) as [[|e k|]|] eqn:Hi; try done.
  destruct (handle E e w) as [[x w1]|] eqn:He; [|done].
  intros [= <- <- <-].
  pose proof (Forall_lookup_1 _ _ _ _ Hg Hi) as [Hk Hcas].
  split; [by apply Forall_insert|].
  apply Forall_app. split.
  - (* what was known stays true *)
    eapply Forall_impl; [exact Hs|]. intros [j ev] Hj e0 d b Hev.
    destruct (Hj e0 d b Hev) as (-> & Hinst & Hseen). split_and!; [done| |].
    + intros Hb Hd. rewrite Hstable; [by apply Hinst|].
      by rewrite (Hinst Hb Hd).
    + intros Hb. destruct (Hseen Hb) as [[Hd Hnn]|(p & Hp & Hc)].
      * left. split; [|done]. rewrite Hstable; [done|]. by rewrite Hd.
      * exfalso. cbn in Hp.
        assert (existsb crashed ts = true) as Hex; [|congruence].
        apply existsb_exists. exists p. split; [|done].
        apply list_elem_of_In. by eapply list_elem_of_lookup_2.
  - (* the step itself *)
    apply Forall_singleton. intros e0 d b Hev.
    apply handle_original_alloc in He.
    destruct e; try done. cbn in Hev, Hcas. destruct Hcas as [-> Hcrash].
    injection Hev as <- <- <-.
    destruct He as [(Hw & -> & Hw')|(Hw & -> & Hw')]; cbn.
    + split_and!; done.
    + split_and!; [done|done|]. intros _.
      destruct (decide (original_alloc_ w = desired)) as [Heq|Hne].
      * left. by rewrite Hw', Heq in *.
      * right. exists Crash. split; [|done].
        rewrite list_lookup_insert_eq by by eapply lookup_lt_Some.
        by rewrite Hcrash.
Qed.

Lemma pool_exec_inv (sched : list nat) :
  ∀ (w w' : World Ω) (ts ts' : list (Prog R)) labels hist,
    pool_exec E sched w ts = Some (labels, (w', ts')) →
    pool_inv w ts hist →
    pool_inv w' ts' (hist ++ labels)
    ∧ (original_alloc_ w ≠ nullptr → original_alloc_ w' = original_alloc_ w).
Proof.
  induction sched as [|i sched IH]; intros w w' ts ts' labels hist; cbn.
  { intros [= <- <- <-]. by rewrite app_nil_r. }
  destruct (pool_step E i w ts) as [[l [w1 ts1]]|] eqn:Hstep; [|done].
  destruct (pool_exec E sched w1 ts1) as [[ls [w2 ts2]]|] eqn:Hexec; [|done].
  intros [= <- <- <-] Hinv.
  pose proof (pool_step_original_alloc _ _ _ _ _ _ (proj1 Hinv) Hstep) as H1.
  pose proof (pool_step_inv _ _ _ _ _ _ _ Hstep Hinv) as Hinv1.
  destruct (IH _ _ _ _ _ _ Hexec Hinv1) as [Hinv' H2].
  rewrite <- app_assoc in Hinv'. split; [done|].
  intros Hset. rewrite H2; [by apply H1|]. by rewrite (H1 Hset).
Qed.

(** A call run on its own is one of the executions of a process with a
    single thread. *)
Lemma run_pool_exec (p : Prog R) (w w' : World Ω) (a : R) :
  run E p w = Returned a w' →
  ∃ sched labels, pool_exec E sched w [p] = Some (labels, (w', [Ret a])).
Proof.
  revert w. induction p as [b|e k IH|]; intros w; cbn; [| |done].
  - intros [= -> ->]. by exists [], [].
  - destruct (handle E e w) as [[x w1]|] eqn:He; [|done].
    intros Hrun. destruct (IH x w1 Hrun) as (sched & labels & Hexec).
    exists (0%nat :: sched), ((0%nat, e ↦ x) :: labels). cbn.
    unfold pool_step. cbn. rewrite He. cbn. by rewrite Hexec.
Qed.

End Slot.

Section SetOnce.
Context {Ω : Type} (E : Runtime Ω).

(** [NewJemallocNodumpAllocator] keeps the discipline: its only access
    to the slot is the compare-exchange against null, and the assertion
    that follows it. *)
Lemma create_cas_guarded cfg (options : JemallocNodumpAllocatorOptions) (out : Z) :
  cas_guarded (NewJemallocNodumpAllocator cfg options out).
Proof.
  unfold NewJemallocNodumpAllocator, release, JemallocNodumpAllocator_dtor,
    JemallocNodumpAllocator_ctor, assert_.
  repeat first
    [ progress cbn
    | split
    | intro
    | match goal with
      | |- context [if ?c then _ else _] => destruct c eqn:?
      | |- context [match ?o with Some _ => _ | None => _ end] => destruct o
      end ]; try done.
  all: match goal with
       | H : (_ =? _) = true |- _ => apply Z.eqb_eq in H; congruence
       end.
Qed.

Lemma perform_cas_guarded cfg (c : Call) : cas_guarded (perform cfg c).
Proof.
  destruct c; try (cbn; by repeat split).
  - apply (cas_guarded_bind (NewJemallocNodumpAllocator cfg _ _));
      [apply create_cas_guarded|done].
  - unfold perform, Alloc, assert_.
    repeat first
      [ progress cbn | split | intro
      | match goal with
        | |- context [if ?c then _ else _] => destruct c eqn:?
        end ]; done.
  - unfold perform, JemallocNodumpAllocator_dtor, assert_.
    repeat first
      [ progress cbn | split | intro
      | match goal with
        | |- context [if ?c then _ else _] => destruct c eqn:?
        end ]; done.
Qed.

(** C2.  The slot [original_alloc_] is written at most once.

    One call of [NewJemallocNodumpAllocator] that returns OK made one
    compare-exchange, expecting null and wanting to install the function
    [d] it captured: the [alloc] entry of the hook table that jemalloc
    gave for the arena the call created; the slot was null and now
    holds [d], or it held [d] already.

    Any number of calls into this file, among them any number of calls
    of [NewJemallocNodumpAllocator], running in threads of one process
    under any schedule (one after the other included): the slot is only
    written by a compare-exchange that expects null; once it holds a
    function it never changes; a compare-exchange that installed a
    function has installed it for good.  A call whose compare-exchange
    found another function than the one it captured has failed its
    assertion; so for every call that has not, the function it captured
    (when not null) is the one in the slot, and any two such calls
    captured the same function, to which [Alloc] delegates for both
    arenas. *)
Theorem original_alloc_set_once cfg :
  (∀ options out (w w1 : World Ω) st,
     run E (NewJemallocNodumpAllocator cfg options out) w = Returned st w1 →
     code st = kOk →
     ∃ d, (CompareExchangeStrong nullptr d
             ↦ (original_alloc_ w =? nullptr, original_alloc_ w))
            ∈ drop (length (trace w)) (trace w1)
          ∧ original_alloc_ w1 = d
          ∧ (original_alloc_ w = nullptr ∨ original_alloc_ w = d)
          ∧ ∃ i hooks orig,
              (Mallctl "arenas.create" true None ↦ (0, i))
                ∈ drop (length (trace w)) (trace w1)
              ∧ (Mallctl ("arena." +:+ ToString cfg i +:+ ".extent_hooks")
                   true None ↦ (0, hooks))
                  ∈ drop (length (trace w)) (trace w1)
              ∧ heap w !! hooks = Some orig
              ∧ d = alloc orig)
  ∧ (∀ (calls : list Call) (sched : list nat) (w w' : World Ω)
       (labels : list (nat * Event)) (ts' : list (Prog Result)),
     pool_exec E sched w (perform cfg <$> calls) = Some (labels, (w', ts')) →
     (original_alloc_ w ≠ nullptr → original_alloc_ w' = original_alloc_ w)
     ∧ (∀ i ev e d b, (i, ev) ∈ labels → cas_of ev = Some (e, d, b) →
          e = nullptr
          ∧ (b = true → d ≠ nullptr → original_alloc_ w' = d)
          ∧ (b = false → original_alloc_ w' ≠ d → ts' !! i = Some Crash)
          ∧ (∀ p, ts' !! i = Some p → crashed p = false →
               d = nullptr ∨ original_alloc_ w' = d))
     ∧ (∀ i j evi evj ei ej di dj bi bj pi pj,
          (i, evi) ∈ labels → cas_of evi = Some (ei, di, bi) →
          (j, evj) ∈ labels → cas_of evj = Some (ej, dj, bj) →
          ts' !! i = Some pi → crashed pi = false →
          ts' !! j = Some pj → crashed pj = false →
          di ≠ nullptr → dj ≠ nullptr → di = dj)).
Proof.
  split.
  { intros options out w w1 st. unfold NewJemallocNodumpAllocator.
    destruct w as [slot ω0 hp os tr]. cbn.
    destruct (ROCKSDB_JEMALLOC_NODUMP_ALLOCATOR cfg); cbn;
      [|by intros [= <- <-]].
    exec; try done; intros [= <- <-]; try done; intros _; cbn.
    all: match goal with
         | Hc : mallctl E "arenas.create" true None _ = (0, ?i, _),
           Hr : mallctl E _ true None _ = (0, ?hooks, _),
           Hh : _ !! ?hooks = Some ?orig |- _ =>
             exists (alloc orig); rewrite <- !app_assoc, drop_app_length;
             split_and!; [|reflexivity|by eauto|exists i, hooks, orig]
         end.
    all: try (split_and!; [| |done|done]).
    all: repeat first [apply list_elem_of_here | apply list_elem_of_further]. }
  intros calls sched w w' labels ts' Hexec.
  assert (pool_inv w (perform cfg <$> calls) []) as Hinit.
  { split; [|done]. apply Forall_fmap, Forall_forall. intros c _.
    apply perform_cas_guarded. }
  destruct (pool_exec_inv E _ _ _ _ _ _ _ Hexec Hinit) as [[_ Hs] Hstable].
  cbn in Hs. rewrite Forall_forall in Hs.
  assert (∀ i ev e d b, (i, ev) ∈ labels → cas_of ev = Some (e, d, b) →
       e = nullptr
       ∧ (b = true → d ≠ nullptr → original_alloc_ w' = d)
       ∧ (b = false → original_alloc_ w' ≠ d → ts' !! i = Some Crash)
       ∧ (∀ p, ts' !! i = Some p → crashed p = false →
            d = nullptr ∨ original_alloc_ w' = d)) as Hall.
  { intros i ev e d b Hin Hev.
    destruct (Hs _ Hin e d b Hev) as (-> & Hinst & Hseen). cbn in Hseen.
    split_and!; [done|done| |].
    - intros Hb Hne. destruct (Hseen Hb) as [[? _]|(p & Hp & Hc)]; [done|].
      by destruct p.
    - intros p Hp Hc. destruct b.
      + destruct (decide (d = nullptr)); [by left|right; by apply Hinst].
      + destruct Hseen as [[? _]|(q & Hq & Hqc)]; [done|by right|congruence]. }
  split_and!; [done|done|].
  intros i j evi evj ei ej di dj bi bj pi pj Hi Hci Hj Hcj Hpi Hai Hpj Haj Hdi Hdj.
  destruct (Hall _ _ _ _ _ Hi Hci) as (_ & _ & _ & Hsi).
  destruct (Hall _ _ _ _ _ Hj Hcj) as (_ & _ & _ & Hsj).
  destruct (Hsi _ Hpi Hai) as [|<-]; [done|].
  by destruct (Hsj _ Hpj Haj) as [|<-].
Qed.

End SetOnce.

(** ** The code at work on the toy runtime *)

Lemma toy_usable_size_contract mallctl_ret madvise_ret :
  usable_size_contract (Toy.toy mallctl_ret madvise_ret).
Proof.
  intros size flags s p s'. cbn. intros [= <- <-] _. cbn.
  rewrite lookup_insert_eq. cbn. unfold Toy.round16.
  pose proof (Z.div_mod (size + 15) 16). pose proof (Z.mod_pos_bound (size + 15) 16).
  lia.
Qed.

(** A slot that already holds another function than the arena's makes the
    call stop at its assertion. *)
Example create_with_foreign_original_alloc :
  ∃ w', run (Toy.toy Toy.all_ok 0)
          (NewJemallocNodumpAllocator Toy.config Toy.options 500)
          (set_original_alloc Toy.start 999) = Aborted w'
        ∧ original_alloc_ w' = 999 ∧ outs w' = ∅.
Proof. eexists. split; [vm_compute; reflexivity|]. by vm_compute. Qed.

(** [Alloc] with a failing [madvise]. *)
Lemma Alloc_madvise_failure_is_fatal_witness :
  ∃ w', run (Toy.toy Toy.all_ok (-1))
          (Alloc Toy.config 4097 0 8192 4096 false true 1) Toy.created
        = Aborted w'.
Proof.
  destruct (Alloc_madvise_failure_is_fatal (Toy.toy Toy.all_ok (-1)) Toy.config
              4097 0 8192 4096 false true 1 Toy.created) as [H _].
  destruct H as (w' & Hw & _); [by vm_compute..|]. by exists w'.
Defined.

(** Two calls in two threads, interleaved, and a request for an extent
    after them. *)
Lemma original_alloc_set_once_witness :
  ∃ labels w',
    pool_exec (Toy.toy Toy.all_ok 0)
      [0; 1; 0; 1; 0; 1; 0; 1; 1; 1; 1; 1; 1; 0; 0; 0; 0; 0; 2; 2; 2]%nat
      Toy.start
      (perform Toy.config <$>
         [CallNew Toy.options 500; CallNew Toy.options 600;
          CallAlloc 4097 0 8192 4096 false true 1])
    = Some (labels, (w', [Ret (RStatus Status_OK); Ret (RStatus Status_OK);
                          Ret (RExtent (65536, false, true))]))
    ∧ original_alloc_ w' = 101.
Proof.
  destruct (pool_exec (Toy.toy Toy.all_ok 0) _ Toy.start _)
    as [[labels [w' ts']]|] eqn:Hexec; [|by vm_compute in Hexec].
  pose proof Hexec as Hrun. vm_compute in Hrun. injection Hrun as <- <- <-.
  eexists _, _. split; [reflexivity|].
  destruct (proj2 (original_alloc_set_once _ _) _ _ _ _ _ _ Hexec)
    as (_ & Hcas & _).
  destruct (Hcas 0%nat (CompareExchangeStrong 0 101 ↦ (true, 0)) 0 101 true)
    as (_ & Hinstalled & _); [|done|by apply Hinstalled].
  repeat first [apply list_elem_of_here | apply list_elem_of_further].
Defined.

(** A successful call into an output that already owns an allocator: the
    second call with the output at 500. *)
Lemma create_result_witness :
  ∃ st w', run (Toy.toy Toy.all_ok 0)
             (NewJemallocNodumpAllocator Toy.config Toy.options 500) Toy.created
           = Returned st w'
    ∧ code st = kOk
    ∧ ∃ a h, outs w' !! 500 = Some a ∧ arena_index_ a ≠ 0 ∧ hooks_ a ≠ nullptr
        ∧ heap w'
          = delete (hooks_ Toy.allocator) (<[hooks_ a := h]> (heap Toy.created)).
Proof.
  destruct (create_result (Toy.toy Toy.all_ok 0) Toy.config Toy.options 500
              Toy.created) as (Hret & _).
  - by vm_compute.
  - intros old Hold. vm_compute in Hold. injection Hold as <-.
    split_and!; [by vm_compute|by vm_compute|]. vm_compute. by eexists.
  - eexists _, _. split; [vm_compute; reflexivity|]. split; [done|].
    edestruct Hret
      as [(_ & a & h & Houts & _ & Hidx & _ & _ & Hhooks & _ & _ & Hheap & _)
         |[[|] _]];
      [vm_compute; reflexivity| |done|done].
    exists a, h. rewrite Houts. split; [apply lookup_insert_eq|].
    split; [done|]. split; [done|]. exact Hheap.
Defined.

(** A null output. *)
Lemma create_null_output_witness :
  run (Toy.toy Toy.all_ok 0)
      (NewJemallocNodumpAllocator Toy.config Toy.options nullptr) Toy.start
    = Returned (Status_InvalidArgument "cache_allocator is nullptr.") Toy.start.
Proof.
  exact (proj2 (create_null_output (Toy.toy Toy.all_ok 0) Toy.config Toy.options
                  Toy.start eq_refl)).
Defined.

(** The same call in a build without the allocator. *)
Example create_in_unsupported_build :
  ∃ st, run (Toy.toy Toy.all_ok 0)
          (NewJemallocNodumpAllocator Toy.unsupported Toy.options nullptr) Toy.start
        = Returned st Toy.start
    ∧ code st = kNotSupported.
Proof. eexists. split; reflexivity. Qed.

(** The table a successful call installs, and the end of the allocator the
    output owned before: the second call with the output at 500. *)
Lemma replacement_hooks_copy_witness :
  ∃ st w' a new,
    run (Toy.toy Toy.all_ok 0)
        (NewJemallocNodumpAllocator Toy.config Toy.options 500) Toy.created
      = Returned st w'
    ∧ code st = kOk
    ∧ outs w' !! 500 = Some a
    ∧ heap w' !! hooks_ a = Some new
    ∧ alloc new = Alloc_address Toy.config
    ∧ mallctl_calls (drop (length (trace Toy.created)) (trace w'))
      = [("arenas.create", true, None, 0);
         ("arena.2.extent_hooks", true, None, 0);
         ("arena.2.extent_hooks", false, Some (hooks_ a), 0);
         ("arena.1.destroy", false, None, 0)].
Proof.
  destruct (run (Toy.toy Toy.all_ok 0)
              (NewJemallocNodumpAllocator Toy.config Toy.options 500) Toy.created)
    as [st w'| |] eqn:Hrun; [|by vm_compute in Hrun..].
  pose proof Hrun as Hv. vm_compute in Hv. injection Hv as <- <-.
  assert (output_ok Toy.created 500) as Hfit.
  { intros old Hold. vm_compute in Hold. injection Hold as <-.
    split_and!; [by vm_compute|by vm_compute|]. vm_compute. by eexists. }
  destruct (replacement_hooks_copy (Toy.toy Toy.all_ok 0) Toy.config Toy.options
              500 Toy.created _ _ Hfit Hrun eq_refl)
    as (a & hooks & orig & new & c & v & rest
        & Ha & _ & _ & _ & _ & Hnew & Halloc & _).
  eexists _, _, a, new. split; [reflexivity|]. split; [reflexivity|].
  split; [exact Ha|]. split; [exact Hnew|]. split; [exact Halloc|].
  vm_compute in Ha. injection Ha as <-. vm_compute. reflexivity.
Defined.

(** A failing read and a failing write of the hooks. *)
Lemma create_failure_leaves_arena_witness :
  (∃ w', run (Toy.toy Toy.read_fails 0)
           (NewJemallocNodumpAllocator Toy.config Toy.options 500) Toy.start
         = Returned (Status_Incomplete
                       "Failed to read existing hooks, error code: 13") w'
       ∧ Toy.arenas (env w') = 1)
  ∧ (∃ w', run (Toy.toy Toy.write_fails 0)
             (NewJemallocNodumpAllocator Toy.config Toy.options 500) Toy.start
           = Returned (Status_Incomplete
                         "Failed to set custom hook, error code: 14") w'
         ∧ Toy.arenas (env w') = 1).
Proof.
  split.
  - destruct (create_failure_leaves_arena (Toy.toy Toy.read_fails 0) Toy.config
                Toy.options 500 Toy.start 1
                {| Toy.arenas := 1; Toy.blocks := ∅ |})
      as [Hread _]; [reflexivity|by vm_compute|reflexivity|by vm_compute|].
    destruct (Hread 13 4096 {| Toy.arenas := 1; Toy.blocks := ∅ |})
      as (w' & Hrun & _ & _ & Henv); [reflexivity|by vm_compute|].
    exists w'. split; [exact Hrun|by rewrite Henv].
  - destruct (create_failure_leaves_arena (Toy.toy Toy.write_fails 0) Toy.config
                Toy.options 500 Toy.start 1
                {| Toy.arenas := 1; Toy.blocks := ∅ |})
      as [_ Hwrite]; [reflexivity|by vm_compute|reflexivity|by vm_compute|].
    destruct (Hwrite 4096 {| Toy.arenas := 1; Toy.blocks := ∅ |}
                Toy.default_hooks 14 0 {| Toy.arenas := 1; Toy.blocks := ∅ |})
      as (w' & c & Hrun & _ & _ & Henv);
      [reflexivity|reflexivity|by left|reflexivity|by vm_compute|].
    exists w'. split; [exact Hrun|by rewrite Henv].
Defined.

(** Destroying the allocator when jemalloc refuses. *)
Lemma destructor_destroys_arena_once_witness :
  ∃ w', run (Toy.toy Toy.write_fails 0)
          (JemallocNodumpAllocator_dtor Toy.config Toy.allocator) Toy.created
        = Returned () w'
    ∧ mallctl_calls (drop (length (trace Toy.created)) (trace w'))
      = [("arena.1.destroy", false, None, 14)].
Proof.
  destruct (destructor_destroys_arena_once (Toy.toy Toy.write_fails 0) Toy.config
              Toy.allocator Toy.created) as (w' & Hrun & _ & Hcalls).
  - by vm_compute.
  - right. vm_compute. by eexists.
  - exists w'. split; [exact Hrun|exact Hcalls].
Defined.

(** Allocating 100 bytes. *)
Lemma UsableSize_at_least_requested_witness :
  ∃ p w' s w'',
    run (Toy.toy Toy.all_ok 0) (Allocate Toy.allocator 100) Toy.created
      = Returned p w'
    ∧ run (Toy.toy Toy.all_ok 0) (UsableSize Toy.allocator p 100) w'
      = Returned s w''
    ∧ 100 ≤ s.
Proof.
  destruct (run (Toy.toy Toy.all_ok 0) (Allocate Toy.allocator 100) Toy.created)
    as [p w'| |] eqn:Hrun; [|by vm_compute in Hrun..].
  pose proof Hrun as Hp. vm_compute in Hp. injection Hp as <- <-.
  destruct (UsableSize_at_least_requested (Toy.toy Toy.all_ok 0) Toy.allocator
              100 100 _ _ _ (toy_usable_size_contract _ _) Hrun)
    as (s & w'' & Hs & Hle); [by vm_compute|].
  eexists _, _, s, w''. split; [reflexivity|]. split; [exact Hs|exact Hle].
Defined.

(** * Further properties of the code *)

(** ** What a successful call leaves behind *)

Section Created.
Context {Ω : Type} (E : Runtime Ω) (cfg : Config).

(** The world after a call of [NewJemallocNodumpAllocator] that returned
    OK with an output that was empty, in terms of the world before it. *)
Lemma create_ok (options : JemallocNodumpAllocatorOptions) (out : Z)
    (w w1 : World Ω) (st : Status) :
  outs w !! out = None →
  run E (NewJemallocNodumpAllocator cfg options out) w = Returned st w1 →
  code st = kOk →
  let idx := (mallctl E "arenas.create" true None (env w)).1.2 in
  let new_hooks := fresh ({[nullptr]} ∪ dom (heap w)) in
  ∃ hooks orig,
    heap w !! hooks = Some orig
    ∧ idx ≠ 0
    ∧ original_alloc_ w1 = alloc orig
    ∧ heap w1 = <[new_hooks := set_alloc orig (Alloc_address cfg)]> (heap w)
    ∧ outs w1
      = <[out := {| arena_index_ := idx;
                    flags_ := Z.lor (MALLOCX_ARENA cfg idx)
                                    (MALLOCX_TCACHE_NONE cfg);
                    hooks_ := new_hooks;
                    info_log_ := info_log options |}]> (outs w).
Proof.
  unfold NewJemallocNodumpAllocator. destruct w as [slot ω0 hp os tr]. cbn.
  intros Hempty.
  destruct (ROCKSDB_JEMALLOC_NODUMP_ALLOCATOR cfg); cbn;
    [|by intros [= <- <-]].
  exec; try done; intros [= <- <-]; try done; intros _; cbn.
  all: eexists _, _; rewrite insert_insert_eq; by split_and!.
Qed.

(** What the output owns after a call that returned OK, whatever it
    owned before. *)
Lemma create_ok_output (options : JemallocNodumpAllocatorOptions) (out : Z)
    (w w1 : World Ω) (st : Status) :
  run E (NewJemallocNodumpAllocator cfg options out) w = Returned st w1 →
  code st = kOk →
  let idx := (mallctl E "arenas.create" true None (env w)).1.2 in
  let new_hooks := fresh ({[nullptr]} ∪ dom (heap w)) in
  outs w1
  = <[out := {| arena_index_ := idx;
                flags_ := Z.lor (MALLOCX_ARENA cfg idx)
                                (MALLOCX_TCACHE_NONE cfg);
                hooks_ := new_hooks;
                info_log_ := info_log options |}]> (outs w).
Proof.
  unfold NewJemallocNodumpAllocator. destruct w as [slot ω0 hp os tr]. cbn.
  destruct (ROCKSDB_JEMALLOC_NODUMP_ALLOCATOR cfg); cbn;
    [|by intros [= <- <-]].
  exec; try done; intros [= <- <-]; try done.
Qed.

(** The destructor, run on an allocator that owns a live table. *)
Lemma dtor_run (this : JemallocNodumpAllocator) (w : World Ω) :
  arena_index_ this ≠ 0 →
  hooks_ this ≠ nullptr →
  is_Some (heap w !! hooks_ this) →
  let key := "arena." +:+ ToString cfg (arena_index_ this) +:+ ".destroy" in
  let r := mallctl E key false None (env w) in
  ∃ w', run E (JemallocNodumpAllocator_dtor cfg this) w = Returned () w'
    ∧ heap w' = delete (hooks_ this) (heap w)
    ∧ original_alloc_ w' = original_alloc_ w
    ∧ outs w' = outs w
    ∧ env w' = r.2
    ∧ mallctl_calls (drop (length (trace w)) (trace w'))
      = [(key, false, None, r.1.1)].
Proof.
  intros Hidx Hnn [h Hh] key r. subst r key.
  unfold JemallocNodumpAllocator_dtor, assert_.
  destruct w as [slot ω0 hp os tr]. cbn in *.
  destruct (Z.eqb_spec (arena_index_ this) 0) as [|_]; [done|]. run_step.
  destruct (mallctl E _ false None ω0) as [[ret v] ω1]. cbn.
  destruct (Z.eqb_spec (hooks_ this) nullptr) as [|_]; [done|].
  destruct (Z.eqb_spec ret 0) as [Hret|Hret]; run_step; rewrite Hh; cbn.
  all: eexists; split; [done|]; cbn; rewrite <- ?app_assoc, drop_app_length.
  all: by split_and!.
Qed.

End Created.

(** ** The interceptor touches nothing of its own *)

Section InterceptorFrame.
Context {Ω : Type} (E : Runtime Ω) (cfg : Config).

(** X1.  [Alloc] only reads [original_alloc_]: however it ends, the
    slot, the hook tables and the callers' outputs are what they were.
    It never runs into undefined behaviour of its own. *)
Theorem Alloc_changes_nothing
    (extent new_addr size alignment : Z) (zero commit : bool) (arena_ind : Z)
    (w : World Ω) :
  match run E (Alloc cfg extent new_addr size alignment zero commit arena_ind) w with
  | Returned _ w' | Aborted w' =>
      original_alloc_ w' = original_alloc_ w
      ∧ heap w' = heap w
      ∧ outs w' = outs w
  | Undefined => False
  end.
Proof.
  destruct w as [slot ω0 hp os tr]. unfold Alloc, assert_. run_step.
  destruct (Z.eqb_spec slot nullptr); cbn; [done|]. run_step.
  destruct (extent_alloc E slot _ ω0) as [r ω1]. cbn.
  destruct (Z.eqb_spec r.1.1 nullptr); cbn; [done|]. run_step.
  destruct (madvise E r.1.1 size (MADV_DONTDUMP cfg) ω1) as [ret ω2]. cbn.
  destruct (Z.eqb_spec ret 0); cbn; [done|]. by run_step.
Qed.

(** X2.  A null result of the original function is passed through: with
    the slot set, [Alloc] returns what the original returned, and the
    load and the call are all it did.  No [madvise] is made on a null
    range and nothing is written to stderr. *)
Theorem Alloc_null_result_passes_through
    (extent new_addr size alignment : Z) (zero commit : bool) (arena_ind : Z)
    (w : World Ω) :
  let f := original_alloc_ w in
  let a := {| a_extent := extent; a_new_addr := new_addr; a_size := size;
              a_alignment := alignment; a_zero := zero; a_commit := commit;
              a_arena_ind := arena_ind |} in
  let r := extent_alloc E f a (env w) in
  f ≠ nullptr →
  r.1.1.1 = nullptr →
  ∃ w', run E (Alloc cfg extent new_addr size alignment zero commit arena_ind) w
        = Returned r.1 w'
    ∧ trace w' = trace w ++ [AtomicLoad ↦ f; CallExtentAlloc f a ↦ r.1]
    ∧ env w' = r.2.
Proof.
  intros f a r Hf Hr. subst f a r. destruct w as [slot ω0 hp os tr].
  cbn in *. unfold Alloc, assert_. run_step.
  destruct (Z.eqb_spec slot nullptr); [done|]. cbn. run_step.
  destruct (extent_alloc E slot _ ω0) as [r ω1]. cbn in *.
  destruct (Z.eqb_spec r.1.1 nullptr); [|done]. cbn.
  eexists. split; [done|]. cbn. by rewrite <- app_assoc.
Qed.

End InterceptorFrame.

(** ** More on the provisioner *)

Section ProvisionerMore.
Context {Ω : Type} (E : Runtime Ω) (cfg : Config).

(** X3.  When "arenas.create" fails, the call logs the return value and
    returns Incomplete with it in the message.  That request and the log
    entry are all it did: no hook table was read, the slot, the tables
    and the output are untouched. *)
Theorem create_arena_creation_fails
    (options : JemallocNodumpAllocatorOptions) (out : Z) (w : World Ω) :
  let r := mallctl E "arenas.create" true None (env w) in
  ROCKSDB_JEMALLOC_NODUMP_ALLOCATOR cfg = true →
  out ≠ nullptr →
  r.1.1 ≠ 0 →
  ∃ w', run E (NewJemallocNodumpAllocator cfg options out) w
        = Returned (Status_Incomplete
            ("Failed to create jemalloc arena, error code: "
             +:+ ToString cfg r.1.1)) w'
    ∧ trace w' = trace w ++
        [Mallctl "arenas.create" true None ↦ r.1;
         RocksLogError (info_log options)
           "Failed to create jemalloc arena, error code: %d" r.1.1 ↦ ()]
    ∧ env w' = r.2
    ∧ original_alloc_ w' = original_alloc_ w
    ∧ heap w' = heap w
    ∧ outs w' = outs w.
Proof.
  intros r Hbuild Hout Hret. subst r. unfold NewJemallocNodumpAllocator.
  rewrite Hbuild. destruct w as [slot ω0 hp os tr]. cbn in *.
  destruct (Z.eqb_spec out nullptr); [done|]. run_step.
  destruct (mallctl E "arenas.create" true None ω0) as [[ret idx] ω1].
  cbn in *. destruct (Z.eqb_spec ret 0); [done|]. cbn. run_step.
  eexists. split; [done|]. cbn. by rewrite <- app_assoc.
Qed.

(** X4.  A call whose output variable is empty never disturbs what is
    there: however it ends, every hook table that was live is still live
    with the same entries (jemalloc's own and those of other allocators),
    and every other output variable holds what it held.  (Assigning to
    an output that owns an allocator releases that allocator and its
    table.) *)
Theorem create_preserves_tables_and_outputs
    (options : JemallocNodumpAllocatorOptions) (out : Z) (w : World Ω) :
  outs w !! out = None →
  match run E (NewJemallocNodumpAllocator cfg options out) w with
  | Returned _ w' | Aborted w' =>
      (∀ p h, heap w !! p = Some h → heap w' !! p = Some h)
      ∧ (∀ o, o ≠ out → outs w' !! o = outs w !! o)
  | Undefined => True
  end.
Proof.
  intros Hempty. unfold NewJemallocNodumpAllocator.
  destruct w as [slot ω0 hp os tr]. cbn in *.
  destruct (fresh_hooks hp) as [_ Hlive].
  destruct (ROCKSDB_JEMALLOC_NODUMP_ALLOCATOR cfg); cbn; [|done].
  exec; try done.
  all: rewrite ?insert_insert_eq, ?delete_insert_id by done.
  all: split; [|intros o Ho; by rewrite ?lookup_insert_ne].
  all: try done.
  all: intros p h Hp; rewrite lookup_insert_ne; [done|congruence].
Qed.

(** X5.  The destructor releases the allocator's own table and nothing
    else: the tables that remain are the others, unchanged; the slot
    [original_alloc_] is not reset, and the outputs are not touched. *)
Theorem destructor_releases_own_table
    (this : JemallocNodumpAllocator) (w : World Ω) :
  arena_index_ this ≠ 0 →
  hooks_ this ≠ nullptr →
  is_Some (heap w !! hooks_ this) →
  ∃ w', run E (JemallocNodumpAllocator_dtor cfg this) w = Returned () w'
    ∧ heap w' !! hooks_ this = None
    ∧ (∀ p, p ≠ hooks_ this → heap w' !! p = heap w !! p)
    ∧ original_alloc_ w' = original_alloc_ w
    ∧ outs w' = outs w.
Proof.
  intros Hidx Hnn Hlive.
  destruct (dtor_run E cfg this w Hidx Hnn Hlive)
    as (w' & Hrun & Hheap & Hslot & Houts & _).
  exists w'. rewrite Hheap. split_and!; [done| | |done|done].
  - apply lookup_delete_eq.
  - intros p Hp. by apply lookup_delete_ne.
Qed.

(** X6.  Creating an allocator in an empty output variable and then
    destroying it leaves no table behind: the destructor asks jemalloc,
    once, to destroy the arena that the call created, and the hook
    tables are those from before the call.  The slot stays set. *)
Theorem create_then_destroy
    (options : JemallocNodumpAllocatorOptions) (out : Z) (w w1 : World Ω)
    (st : Status) :
  outs w !! out = None →
  run E (NewJemallocNodumpAllocator cfg options out) w = Returned st w1 →
  code st = kOk →
  let idx := (mallctl E "arenas.create" true None (env w)).1.2 in
  let key := "arena." +:+ ToString cfg idx +:+ ".destroy" in
  ∃ a w2,
    outs w1 !! out = Some a
    ∧ run E (JemallocNodumpAllocator_dtor cfg a) w1 = Returned () w2
    ∧ heap w2 = heap w
    ∧ original_alloc_ w2 = original_alloc_ w1
    ∧ mallctl_calls (drop (length (trace w1)) (trace w2))
      = [(key, false, None, (mallctl E key false None (env w1)).1.1)].
Proof.
  intros Hempty Hrun Hok idx key.
  destruct (create_ok E cfg _ _ _ _ _ Hempty Hrun Hok)
    as (hooks & orig & Horig & Hidx & Hslot & Hheap & Houts).
  destruct (fresh_hooks (heap w)) as [Hnn Hfresh].
  rewrite Houts, lookup_insert_eq.
  match goal with
  | |- ∃ a _, Some ?b = Some a ∧ _ =>
      destruct (dtor_run E cfg b w1) as (w2 & Hdtor & Hheap2 & Hslot2 & _ & _ & Hcalls);
        [done|done| |exists b, w2]
  end.
  { cbn. rewrite Hheap, lookup_insert_eq. by eexists. }
  cbn in *. split_and!; [done|done| |done|done].
  by rewrite Hheap2, Hheap, delete_insert_id.
Qed.

(** X7.  The allocator a successful call hands out allocates in the
    arena that call created, with the thread cache off: [Allocate] makes
    one [mallocx] with the flags MALLOCX_ARENA(index) | MALLOCX_TCACHE_NONE
    and returns its result as it is (null included); [Deallocate] makes
    one [dallocx] of the pointer with the same flags.  Neither touches
    the slot, the tables or the outputs. *)
Theorem created_allocator_uses_its_arena
    (options : JemallocNodumpAllocatorOptions) (out : Z) (w w1 : World Ω)
    (st : Status) :
  run E (NewJemallocNodumpAllocator cfg options out) w = Returned st w1 →
  code st = kOk →
  let idx := (mallctl E "arenas.create" true None (env w)).1.2 in
  let flags := Z.lor (MALLOCX_ARENA cfg idx) (MALLOCX_TCACHE_NONE cfg) in
  ∃ a, outs w1 !! out = Some a
    ∧ (∀ (w2 : World Ω) size,
         let r := mallocx E size flags (env w2) in
         ∃ w3, run E (Allocate a size) w2 = Returned r.1 w3
           ∧ trace w3 = trace w2 ++ [Mallocx size flags ↦ r.1]
           ∧ env w3 = r.2
           ∧ original_alloc_ w3 = original_alloc_ w2
           ∧ heap w3 = heap w2 ∧ outs w3 = outs w2)
    ∧ (∀ (w2 : World Ω) p,
         ∃ w3, run E (Deallocate a p) w2 = Returned () w3
           ∧ trace w3 = trace w2 ++ [Dallocx p flags ↦ ()]
           ∧ env w3 = dallocx E p flags (env w2)
           ∧ original_alloc_ w3 = original_alloc_ w2
           ∧ heap w3 = heap w2 ∧ outs w3 = outs w2).
Proof.
  intros Hrun Hok idx flags.
  pose proof (create_ok_output E cfg _ _ _ _ _ Hrun Hok) as Houts.
  cbn in Houts. eexists. split; [rewrite Houts; apply lookup_insert_eq|]. split.
  - intros [slot ω0 hp os tr] size r. subst r. unfold Allocate. run_step.
    fold idx flags. destruct (mallocx E size flags ω0) as [p ω1]. cbn.
    by eexists.
  - intros [slot ω0 hp os tr] p. unfold Deallocate. run_step. by eexists.
Qed.

(** X8.  Two successful calls, one after the other, into two empty
    output variables: each allocator owns a table of its own.  The two
    tables are at different addresses, both are live and both have
    [Alloc] as their allocation hook; the second call did not touch the
    first allocator or its table. *)
Theorem two_creates_own_distinct_tables
    (o1 o2 : JemallocNodumpAllocatorOptions) (out1 out2 : Z)
    (w w1 w2 : World Ω) (st1 st2 : Status) :
  outs w !! out1 = None →
  outs w1 !! out2 = None →
  run E (NewJemallocNodumpAllocator cfg o1 out1) w = Returned st1 w1 →
  code st1 = kOk →
  run E (NewJemallocNodumpAllocator cfg o2 out2) w1 = Returned st2 w2 →
  code st2 = kOk →
  ∃ a1 a2 h1 h2,
    outs w1 !! out1 = Some a1
    ∧ outs w2 !! out1 = Some a1
    ∧ outs w2 !! out2 = Some a2
    ∧ hooks_ a1 ≠ hooks_ a2
    ∧ heap w1 !! hooks_ a1 = Some h1
    ∧ heap w2 !! hooks_ a1 = Some h1
    ∧ heap w2 !! hooks_ a2 = Some h2
    ∧ alloc h1 = Alloc_address cfg
    ∧ alloc h2 = Alloc_address cfg.
Proof.
  intros Hempty1 Hempty Hrun1 Hok1 Hrun2 Hok2.
  destruct (create_ok E cfg _ _ _ _ _ Hempty1 Hrun1 Hok1)
    as (hooks1 & orig1 & _ & _ & _ & Hheap1 & Houts1).
  destruct (create_ok E cfg _ _ _ _ _ Hempty Hrun2 Hok2)
    as (hooks2 & orig2 & _ & _ & _ & Hheap2 & Houts2).
  destruct (fresh_hooks (heap w1)) as [_ Hfresh2].
  set (p1 := fresh ({[nullptr]} ∪ dom (heap w))) in *.
  set (p2 := fresh ({[nullptr]} ∪ dom (heap w1))) in *.
  assert (out2 ≠ out1) as Hout.
  { intros ->. by rewrite Houts1, lookup_insert_eq in Hempty. }
  assert (p2 ≠ p1) as Hne.
  { intros Heq. by rewrite Heq, Hheap1, lookup_insert_eq in Hfresh2. }
  eexists _, _, (set_alloc orig1 (Alloc_address cfg)),
    (set_alloc orig2 (Alloc_address cfg)).
  split; [rewrite Houts1; apply lookup_insert_eq|].
  split; [by rewrite Houts2, lookup_insert_ne, Houts1, lookup_insert_eq|].
  split; [rewrite Houts2; apply lookup_insert_eq|]. cbn.
  split; [done|].
  split; [by rewrite Hheap1, lookup_insert_eq|].
  split; [by rewrite Hheap2, lookup_insert_ne, Hheap1, lookup_insert_eq|].
  split; [by rewrite Hheap2, lookup_insert_eq|]. done.
Qed.

(** X10.  An arena with index 0: when "arenas.create" succeeds but hands
    back index 0, the call stops at its assertion right after that
    request.  No hook table was read, and the slot, the tables and the
    output are untouched. *)
Theorem create_zero_index_aborts
    (options : JemallocNodumpAllocatorOptions) (out : Z) (w : World Ω) :
  let r := mallctl E "arenas.create" true None (env w) in
  ROCKSDB_JEMALLOC_NODUMP_ALLOCATOR cfg = true →
  out ≠ nullptr →
  r.1.1 = 0 →
  r.1.2 = 0 →
  ∃ w', run E (NewJemallocNodumpAllocator cfg options out) w = Aborted w'
    ∧ trace w' = trace w ++ [Mallctl "arenas.create" true None ↦ (0, 0)]
    ∧ env w' = r.2
    ∧ original_alloc_ w' = original_alloc_ w
    ∧ heap w' = heap w
    ∧ outs w' = outs w.
Proof.
  intros r Hbuild Hout Hret Hidx. subst r. unfold NewJemallocNodumpAllocator.
  rewrite Hbuild. destruct w as [slot ω0 hp os tr]. cbn in *.
  destruct (Z.eqb_spec out nullptr); [done|]. run_step.
  destruct (mallctl E "arenas.create" true None ω0) as [[ret idx] ω1].
  cbn in *. subst ret idx. cbn. by eexists.
Qed.

(** X11.  A slot that holds another function than the new arena's
    allocation hook: the call stops at its assertion after the
    compare-exchange.  It has created the arena and read its table, but
    it has made no table of its own and written nothing to jemalloc; the
    slot keeps the function it held, and the output is untouched. *)
Theorem create_foreign_original_alloc_aborts
    (options : JemallocNodumpAllocatorOptions) (out : Z) (w : World Ω)
    (idx hooks : Z) (ω1 ω2 : Ω) (h : extent_hooks_t) :
  let key := "arena." +:+ ToString cfg idx +:+ ".extent_hooks" in
  ROCKSDB_JEMALLOC_NODUMP_ALLOCATOR cfg = true →
  out ≠ nullptr →
  mallctl E "arenas.create" true None (env w) = (0, idx, ω1) →
  idx ≠ 0 →
  mallctl E key true None ω1 = (0, hooks, ω2) →
  heap w !! hooks = Some h →
  original_alloc_ w ≠ nullptr →
  original_alloc_ w ≠ alloc h →
  ∃ w', run E (NewJemallocNodumpAllocator cfg options out) w = Aborted w'
    ∧ trace w' = trace w ++
        [Mallctl "arenas.create" true None ↦ (0, idx);
         Mallctl key true None ↦ (0, hooks);
         ReadExtentHooks hooks ↦ h;
         CompareExchangeStrong nullptr (alloc h) ↦ (false, original_alloc_ w)]
    ∧ env w' = ω2
    ∧ original_alloc_ w' = original_alloc_ w
    ∧ heap w' = heap w
    ∧ outs w' = outs w.
Proof.
  intros key Hbuild Hout Hcreate Hidx Hread Hh Hset Hne. subst key.
  unfold NewJemallocNodumpAllocator. rewrite Hbuild.
  destruct w as [slot ω0 hp os tr]. cbn [env heap trace original_alloc_ outs] in *.
  exec; try done.
  eexists. split; [done|]. cbn. by rewrite <- !app_assoc.
Qed.

End ProvisionerMore.

(** ** Who writes the slot *)

Section OnlyCreateWrites.
Context {Ω : Type} (E : Runtime Ω).

Lemma cas_free_bind {A B} (p : Prog A) (f : A → Prog B) :
  cas_free p → (∀ a, cas_free (f a)) → cas_free (p ≫= f).
Proof.
  intros Hp Hf. induction p as [a|e k IH|]; cbn; [apply Hf| |done].
  destruct Hp as [He Hk]. split; [done|]. intros x. apply IH, Hk.
Qed.

Lemma perform_cas_free cfg (c : Call) :
  is_new c = false → cas_free (perform cfg c).
Proof.
  destruct c; try done; intros _; try (cbn; by repeat split).
  - unfold perform, Alloc, assert_.
    repeat first
      [ progress cbn | split | intro
      | match goal with
        | |- context [if ?c then _ else _] => destruct c eqn:?
        end ]; done.
  - unfold perform, JemallocNodumpAllocator_dtor, assert_.
    repeat first
      [ progress cbn | split | intro
      | match goal with
        | |- context [if ?c then _ else _] => destruct c eqn:?
        end ]; done.
Qed.

Lemma pool_exec_cas_free {R} (sched : list nat) :
  ∀ (w w' : World Ω) (ts ts' : list (Prog R)) labels,
    Forall cas_free ts →
    pool_exec E sched w ts = Some (labels, (w', ts')) →
    original_alloc_ w' = original_alloc_ w
    ∧ Forall (λ l, cas_of l.2 = None) labels.
Proof.
  induction sched as [|i sched IH]; intros w w' ts ts' labels Hfree; cbn.
  { by intros [= <- <- <-]. }
  unfold pool_step. destruct (existsb crashed ts); [done|].
  destruct (ts !! i) as [[|e k|]|] eqn:Hi; try done.
  destruct (handle E e w) as [[x w1]|] eqn:He; [|done].
  destruct (pool_exec E sched w1 (<[i:=k x]> ts)) as [[ls [w2 ts2]]|] eqn:Hexec;
    [|done].
  intros [= <- <- <-].
  pose proof (Forall_lookup_1 _ _ _ _ Hfree Hi) as [Hop Hk].
  destruct (IH _ _ _ _ _ (Forall_insert _ _ _ _ Hfree (Hk x)) Hexec)
    as [Hslot Hls].
  apply handle_original_alloc in He. destruct e; try done.
  all: split; [by rewrite Hslot|by constructor].
Qed.

(** X9.  Only [NewJemallocNodumpAllocator] writes the slot.  Calls of
    [Allocate], [Deallocate], [UsableSize], [Alloc] and the destructor,
    in any number of threads under any schedule, make no compare-exchange
    and leave [original_alloc_] as it is: destroying an allocator does
    not reset it. *)
Theorem only_create_writes_the_slot cfg
    (calls : list Call) (sched : list nat) (w w' : World Ω)
    (labels : list (nat * Event)) (ts' : list (Prog Result)) :
  Forall (λ c, is_new c = false) calls →
  pool_exec E sched w (perform cfg <$> calls) = Some (labels, (w', ts')) →
  original_alloc_ w' = original_alloc_ w
  ∧ Forall (λ l, cas_of l.2 = None) labels.
Proof.
  intros Hcalls Hexec. eapply pool_exec_cas_free; [|exact Hexec].
  apply Forall_fmap. eapply Forall_impl; [exact Hcalls|].
  intros c Hc. by apply perform_cas_free.
Qed.

End OnlyCreateWrites.

(** ** The further properties on the toy runtime *)

(** The original runs out of memory. *)
Lemma Alloc_null_result_passes_through_witness :
  ∃ w', run (Toy.toy Toy.all_ok 0)
          (Alloc Toy.config 4097 0 8192 4096 false true 1)
          (set_original_alloc Toy.start 999)
        = Returned (nullptr, false, true) w'.
Proof.
  destruct (Alloc_null_result_passes_through (Toy.toy Toy.all_ok 0) Toy.config
              4097 0 8192 4096 false true 1 (set_original_alloc Toy.start 999))
    as (w' & Hrun & _); [by vm_compute|reflexivity|].
  by exists w'.
Defined.

(** jemalloc refuses to create an arena. *)
Lemma create_arena_creation_fails_witness :
  ∃ w', run (Toy.toy (λ _ _, 12) 0)
          (NewJemallocNodumpAllocator Toy.config Toy.options 500) Toy.start
        = Returned (Status_Incomplete
                      "Failed to create jemalloc arena, error code: 12") w'
    ∧ outs w' = ∅.
Proof.
  destruct (create_arena_creation_fails (Toy.toy (λ _ _, 12) 0) Toy.config
              Toy.options 500 Toy.start)
    as (w' & Hrun & _ & _ & _ & _ & Houts);
    [reflexivity|by vm_compute|by vm_compute|].
  exists w'. split; [exact Hrun|exact Houts].
Defined.

(** jemalloc's default table after a call. *)
Lemma create_preserves_tables_and_outputs_witness :
  heap Toy.created !! Toy.default_hooks_at = Some Toy.default_hooks.
Proof.
  pose proof (create_preserves_tables_and_outputs (Toy.toy Toy.all_ok 0)
                Toy.config Toy.options 500 Toy.start eq_refl) as H.
  unfold Toy.created.
  destruct (run (Toy.toy Toy.all_ok 0)
              (NewJemallocNodumpAllocator Toy.config Toy.options 500) Toy.start)
    as [st w'| |] eqn:Hrun; [|by vm_compute in Hrun..].
  by apply H.
Defined.

(** Destroying the allocator of [Toy.created]. *)
Lemma destructor_releases_own_table_witness :
  ∃ w', run (Toy.toy Toy.all_ok 0)
          (JemallocNodumpAllocator_dtor Toy.config Toy.allocator) Toy.created
        = Returned () w'
    ∧ heap w' !! hooks_ Toy.allocator = None
    ∧ original_alloc_ w' = 101.
Proof.
  destruct (destructor_releases_own_table (Toy.toy Toy.all_ok 0) Toy.config
              Toy.allocator Toy.created)
    as (w' & Hrun & Hgone & _ & Hslot & _).
  - by vm_compute.
  - by vm_compute.
  - vm_compute. by eexists.
  - exists w'. split; [exact Hrun|]. split; [exact Hgone|]. by rewrite Hslot.
Defined.

Lemma create_then_destroy_witness :
  ∃ a w2, outs Toy.created !! 500 = Some a
    ∧ run (Toy.toy Toy.all_ok 0) (JemallocNodumpAllocator_dtor Toy.config a)
        Toy.created = Returned () w2
    ∧ heap w2 = heap Toy.start.
Proof.
  destruct (create_then_destroy (Toy.toy Toy.all_ok 0) Toy.config Toy.options 500
              Toy.start Toy.created Status_OK)
    as (a & w2 & Ha & Hrun & Hheap & _);
    [reflexivity|vm_compute; reflexivity|reflexivity|].
  exists a, w2. split; [exact Ha|]. split; [exact Hrun|exact Hheap].
Defined.

Lemma created_allocator_uses_its_arena_witness :
  ∃ a w3, outs Toy.created !! 500 = Some a
    ∧ run (Toy.toy Toy.all_ok 0) (Allocate a 100) Toy.created = Returned 1 w3
    ∧ trace w3 = trace Toy.created ++ [Mallocx 100 2097408 ↦ 1].
Proof.
  destruct (created_allocator_uses_its_arena (Toy.toy Toy.all_ok 0) Toy.config
              Toy.options 500 Toy.start Toy.created Status_OK)
    as (a & Ha & Halloc & _); [vm_compute; reflexivity|reflexivity|].
  destruct (Halloc Toy.created 100) as (w3 & Hrun & Htrace & _).
  exists a, w3. split; [exact Ha|]. split; [exact Hrun|exact Htrace].
Defined.

(** A second call, with its output at 600. *)
Lemma two_creates_own_distinct_tables_witness :
  ∃ w2 a1 a2,
    run (Toy.toy Toy.all_ok 0)
      (NewJemallocNodumpAllocator Toy.config Toy.options 600) Toy.created
    = Returned Status_OK w2
    ∧ outs w2 !! 500 = Some a1 ∧ outs w2 !! 600 = Some a2
    ∧ hooks_ a1 ≠ hooks_ a2.
Proof.
  destruct (run (Toy.toy Toy.all_ok 0)
              (NewJemallocNodumpAllocator Toy.config Toy.options 600) Toy.created)
    as [st w2| |] eqn:Hrun; [|by vm_compute in Hrun..].
  pose proof Hrun as Hst. vm_compute in Hst. injection Hst as <- _.
  destruct (two_creates_own_distinct_tables (Toy.toy Toy.all_ok 0) Toy.config
              Toy.options Toy.options 500 600 Toy.start Toy.created w2
              Status_OK Status_OK)
    as (a1 & a2 & h1 & h2 & _ & H1 & H2 & Hne & _);
    [reflexivity|by vm_compute|vm_compute; reflexivity|reflexivity|exact Hrun
    |reflexivity|].
  exists w2, a1, a2. split; [reflexivity|]. split; [exact H1|].
  split; [exact H2|exact Hne].
Defined.

(** An extent request, an allocation and the destructor, interleaved. *)
Lemma only_create_writes_the_slot_witness :
  ∃ labels w' ts',
    pool_exec (Toy.toy Toy.all_ok 0) [0; 1; 2; 0; 2; 0]%nat Toy.created
      (perform Toy.config <$>
         [CallAlloc 4097 0 8192 4096 false true 1;
          CallAllocate Toy.allocator 100;
          CallDestroy Toy.allocator])
    = Some (labels, (w', ts'))
    ∧ original_alloc_ w' = 101.
Proof.
  destruct (pool_exec (Toy.toy Toy.all_ok 0) _ Toy.created _)
    as [[labels [w' ts']]|] eqn:Hexec; [|by vm_compute in Hexec].
  destruct (only_create_writes_the_slot (Toy.toy Toy.all_ok 0) Toy.config
              [CallAlloc 4097 0 8192 4096 false true 1;
               CallAllocate Toy.allocator 100;
               CallDestroy Toy.allocator]
              _ _ _ _ _ ltac:(by repeat constructor) Hexec) as [Hslot _].
  eexists _, _, _. split; [reflexivity|]. by rewrite Hslot.
Defined.

(** A jemalloc that answers with arena 0. *)
Lemma create_zero_index_aborts_witness :
  ∃ w', run (Toy.toy Toy.all_ok 0)
          (NewJemallocNodumpAllocator Toy.config Toy.options 500)
          (set_env Toy.start {| Toy.arenas := -1; Toy.blocks := ∅ |})
        = Aborted w'
    ∧ outs w' = ∅.
Proof.
  destruct (create_zero_index_aborts (Toy.toy Toy.all_ok 0) Toy.config
              Toy.options 500
              (set_env Toy.start {| Toy.arenas := -1; Toy.blocks := ∅ |}))
    as (w' & Hrun & _ & _ & _ & _ & Houts);
    [reflexivity|by vm_compute|reflexivity|reflexivity|].
  exists w'. split; [exact Hrun|exact Houts].
Defined.

(** The slot holds 999, the arena's hook is 101. *)
Lemma create_foreign_original_alloc_aborts_witness :
  ∃ w', run (Toy.toy Toy.all_ok 0)
          (NewJemallocNodumpAllocator Toy.config Toy.options 500)
          (set_original_alloc Toy.start 999)
        = Aborted w'
    ∧ original_alloc_ w' = 999.
Proof.
  destruct (create_foreign_original_alloc_aborts (Toy.toy Toy.all_ok 0)
              Toy.config Toy.options 500 (set_original_alloc Toy.start 999)
              1 Toy.default_hooks_at
              {| Toy.arenas := 1; Toy.blocks := ∅ |}
              {| Toy.arenas := 1; Toy.blocks := ∅ |} Toy.default_hooks)
    as (w' & Hrun & _ & _ & Hslot & _);
    [reflexivity|by vm_compute|reflexivity|by vm_compute|reflexivity
    |reflexivity|by vm_compute|by vm_compute|].
  exists w'. split; [exact Hrun|exact Hslot].
Defined.
